(** * A shallow embedding of [core/site_generator.py]

    The static site generator reads Markdown documents with a front-matter
    block, renders them through Jinja2 templates, injects a post index and
    development utilities, and writes the pages below an output root.

    Conventions of the embedding.
    - A Python [str] is a Rocq [string]; its characters are the code points
      below 128 (all the markers the program looks for are ASCII).  The
      character classes ([isspace], cased letters) are those of Python on
      that range.
    - A Python [dict] with string keys is a [gmap string string]; [len] is
      [size].
    - Calls that leave the interpreter ([os], [shutil], [jinja2], [sass],
      [time], [print], and the helpers of [core.util]) are fields of a
      record [Sys]; every such call is logged in a trace of [Event]s, and may
      raise.  The program itself runs in a state-and-exception monad [M]. *)

From Stdlib Require Import String Ascii List Arith Bool Lia.
From stdpp Require Import gmap strings list fin_maps.

Local Open Scope string_scope.

(** ** Python string methods *)

Module Py.

(** The newline character, ['\n']. *)
Definition NL : ascii := "010"%char.

(** [s.startswith(p)] *)
Definition startswith (s p : string) : bool := String.prefix p s.

(** [s.endswith(p)] *)
Definition endswith (s p : string) : bool :=
  (String.length p <=? String.length s)%nat &&
  String.eqb (substring (String.length s - String.length p) (String.length p) s) p.

(** [s.split(sep)] for a one-character separator: never the empty list. *)
Fixpoint split (sep : ascii) (s : string) : list string :=
  match s with
  | "" => [""]
  | String c s' =>
      if Ascii.eqb c sep then "" :: split sep s'
      else match split sep s' with
           | w :: ws => String c w :: ws
           | [] => [String c ""]
           end
  end.

(** [s.split(sep, 1)]: at most one cut, at the first separator. *)
Fixpoint split1 (sep : ascii) (s : string) : list string :=
  match s with
  | "" => [""]
  | String c s' =>
      if Ascii.eqb c sep then [""; s']
      else match split1 sep s' with
           | w :: ws => String c w :: ws
           | [] => [String c ""]
           end
  end.

(** [sep.join(l)] *)
Definition join (sep : string) (l : list string) : string := String.concat sep l.

(** [c.isspace()] on the ASCII range: TAB, LF, VT, FF, CR, FS, GS, RS, US
    and the blank. *)
Definition isspace (c : ascii) : bool :=
  let n := nat_of_ascii c in
  ((9 <=? n) && (n <=? 13) || (28 <=? n) && (n <=? 32))%nat.

Fixpoint lstrip (s : string) : string :=
  match s with
  | "" => ""
  | String c s' => if isspace c then lstrip s' else s
  end.

Fixpoint rstrip (s : string) : string :=
  match s with
  | "" => ""
  | String c s' =>
      match rstrip s' with
      | "" => if isspace c then "" else String c ""
      | r => String c r
      end
  end.

(** [s.strip()] *)
Definition strip (s : string) : string := rstrip (lstrip s).

Definition isupper (c : ascii) : bool :=
  let n := nat_of_ascii c in ((65 <=? n) && (n <=? 90))%nat.

Definition islower (c : ascii) : bool :=
  let n := nat_of_ascii c in ((97 <=? n) && (n <=? 122))%nat.

Definition iscased (c : ascii) : bool := isupper c || islower c.

Definition upper (c : ascii) : ascii :=
  if islower c then ascii_of_nat (nat_of_ascii c - 32) else c.

Definition lower (c : ascii) : ascii :=
  if isupper c then ascii_of_nat (nat_of_ascii c + 32) else c.

(** The loop of [s.title()]: a cased character is upper-cased when the
    previous character is not cased and lower-cased when it is; any other
    character is kept. *)
Fixpoint title_from (prev_cased : bool) (s : string) : string :=
  match s with
  | "" => ""
  | String c s' =>
      if iscased c
      then String (if prev_cased then lower c else upper c) (title_from true s')
      else String c (title_from false s')
  end.

(** [s.title()] *)
Definition title (s : string) : string := title_from false s.

(** The scan of [s.replace(old, new)] for a non-empty [old]: occurrences are
    found from the left and do not overlap; [skip] counts the characters of
    the current occurrence still to be dropped. *)
Fixpoint replace_scan (old new : string) (skip : nat) (s : string) : string :=
  match s with
  | "" => ""
  | String c s' =>
      match skip with
      | S k => replace_scan old new k s'
      | O =>
          if String.prefix old s
          then new ++ replace_scan old new (String.length old - 1) s'
          else String c (replace_scan old new 0 s')
      end
  end.

(** With an empty [old], [new] is put before every character and at the
    end. *)
Fixpoint replace_empty (new : string) (s : string) : string :=
  match s with
  | "" => new
  | String c s' => new ++ String c (replace_empty new s')
  end.

(** [s.replace(old, new)] *)
Definition replace (s old new : string) : string :=
  match old with
  | "" => replace_empty new s
  | _ => replace_scan old new 0 s
  end.

(** [s.find(sub)], with [None] for Python's [-1]. *)
Definition find (s sub : string) : option nat := String.index 0 sub s.

(** [os.path.join(a, b)] of [posixpath]: an absolute [b] discards [a]. *)
Definition path_join2 (a b : string) : string :=
  if startswith b "/" then b
  else if String.eqb a "" || endswith a "/" then a ++ b
  else a ++ "/" ++ b.

(** [os.path.join(a, *p)] *)
Definition path_join (a : string) (p : list string) : string :=
  fold_left path_join2 p a.

End Py.

(** ** Exceptions, results and the trace of external calls *)

Inductive Exn : Type :=
| FileNotFoundError (path : string)
| FileExistsError (path : string)
| TemplateNotFound (name : string)
| TypeError (msg : string)
| CompileError (msg : string)
| OtherError (msg : string).

Inductive Res (A : Type) : Type :=
| Ok (a : A)
| Raised (e : Exn).

Arguments Ok {A} a.
Arguments Raised {A} e.

(** One event per call that leaves the interpreter, with its arguments. *)
Inductive Event : Type :=
| EvPerfCounter
| EvListdir (path : string)
| EvRmtree (path : string)
| EvMakedirs (path : string)
| EvMkdir (path : string)
| EvCopyfile (src dst : string)
| EvReadFile (path : string)
| EvWriteFile (path text : string)
| EvGetTemplate (name : string)
| EvRender (context : gmap string string)
| EvSassCompile (input_dir output_dir style : string)
| EvPrint (text : string).

(** The collaborators of the generator.  [World] is whatever they act on (the
    file system, the template directory, the clock).  [sys_read_file] and
    [sys_write_file] stand for [core.util.read_file] and
    [core.util.write_file]; [sys_markdown] for
    [markdown.markdown(_, extensions=['nl2br'])]; [sys_elapsed start finish]
    for the text of [round(finish - start, 3)]. *)
Record Sys : Type := {
  World : Type;
  Template : Type;
  Time : Type;
  sys_perf_counter : World -> Time * World;
  sys_listdir : string -> World -> Res (list string) * World;
  sys_rmtree : string -> World -> World;
  sys_makedirs : string -> World -> Res unit * World;
  sys_mkdir : string -> World -> Res unit * World;
  sys_copyfile : string -> string -> World -> Res unit * World;
  sys_read_file : string -> World -> Res string * World;
  sys_write_file : string -> string -> World -> Res unit * World;
  sys_get_template : string -> World -> Res Template * World;
  sys_render : Template -> gmap string string -> World -> Res string * World;
  sys_sass_compile : string -> string -> string -> World -> Res unit * World;
  sys_print : string -> World -> World;
  sys_markdown : string -> string;
  sys_elapsed : Time -> Time -> string
}.

(** [core.config.CONFIG]: the sections [IO] and [SETTINGS].  The two flags hold
    what [getboolean] returns, [None] when the option is not set. *)
Record Config : Type := {
  INPUT_DIR : string;
  OUTPUT_DIR : string;
  STATIC_DIR : string;
  DEBUG : option bool;
  CLIENT_SIDE_ROUTING : option bool;
  CSS_OUTPUT_STYLE : string;
  POST_LIST_TARGET : string
}.

(** [bool(x)] for the result of [getboolean]. *)
Definition py_bool (x : option bool) : bool :=
  match x with
  | Some b => b
  | None => false
  end.

(** ** The state-and-exception monad *)

Record State (sys : Sys) : Type := {
  world : World sys;
  trace : list Event
}.

Arguments world {sys} s.
Arguments trace {sys} s.

Definition M (sys : Sys) (A : Type) : Type := State sys -> Res A * State sys.

Definition ret {sys : Sys} {A : Type} (a : A) : M sys A := fun s => (Ok a, s).

Definition raise {sys : Sys} {A : Type} (e : Exn) : M sys A := fun s => (Raised e, s).

Definition bind {sys : Sys} {A B : Type} (m : M sys A) (k : A -> M sys B) : M sys B :=
  fun s =>
    match m s with
    | (Ok a, s') => k a s'
    | (Raised e, s') => (Raised e, s')
    end.

(** [try: m  except CompileError as e: h e] *)
Definition try_compile_error {sys : Sys} {A : Type} (m : M sys A) (h : string -> M sys A) : M sys A :=
  fun s =>
    match m s with
    | (Raised (CompileError msg), s') => h msg s'
    | r => r
    end.

Declare Scope prog_scope.
Delimit Scope prog_scope with prog.

Notation "x <- m ;; k" := (bind m (fun x => k))
  (at level 100, m at next level, right associativity) : prog_scope.
Notation "m ;; k" := (bind m (fun _ => k))
  (at level 100, right associativity) : prog_scope.

Local Open Scope prog_scope.

(** [for x in l: body x] *)
Fixpoint for_each {sys : Sys} {A : Type} (l : list A) (body : A -> M sys unit) : M sys unit :=
  match l with
  | [] => ret tt
  | x :: l' => body x ;; for_each l' body
  end.

(** A call that may raise: the event is logged, then the collaborator acts. *)
Definition call {sys : Sys} {A : Type} (ev : Event) (f : World sys -> Res A * World sys) : M sys A :=
  fun s =>
    let (r, w) := f (world s) in
    (r, {| world := w; trace := trace s ++ [ev] |}).

(** A call that cannot raise. *)
Definition call_total {sys : Sys} {A : Type} (ev : Event) (f : World sys -> A * World sys) : M sys A :=
  fun s =>
    let (a, w) := f (world s) in
    (Ok a, {| world := w; trace := trace s ++ [ev] |}).

Definition perf_counter {sys : Sys} : M sys (Time sys) :=
  call_total EvPerfCounter (sys_perf_counter sys).

Definition os_listdir {sys : Sys} (path : string) : M sys (list string) :=
  call (EvListdir path) (sys_listdir sys path).

(** [shutil.rmtree(path, ignore_errors=True)] *)
Definition shutil_rmtree {sys : Sys} (path : string) : M sys unit :=
  call_total (EvRmtree path) (fun w => (tt, sys_rmtree sys path w)).

Definition os_makedirs {sys : Sys} (path : string) : M sys unit :=
  call (EvMakedirs path) (sys_makedirs sys path).

Definition os_mkdir {sys : Sys} (path : string) : M sys unit :=
  call (EvMkdir path) (sys_mkdir sys path).

Definition shutil_copyfile {sys : Sys} (src dst : string) : M sys unit :=
  call (EvCopyfile src dst) (sys_copyfile sys src dst).

Definition read_file {sys : Sys} (path : string) : M sys string :=
  call (EvReadFile path) (sys_read_file sys path).

Definition write_file {sys : Sys} (path text : string) : M sys unit :=
  call (EvWriteFile path text) (sys_write_file sys path text).

Definition env_get_template {sys : Sys} (name : string) : M sys (Template sys) :=
  call (EvGetTemplate name) (sys_get_template sys name).

Definition template_render {sys : Sys} (t : Template sys) (context : gmap string string) : M sys string :=
  call (EvRender context) (sys_render sys t context).

Definition sass_compile {sys : Sys} (input_dir output_dir style : string) : M sys unit :=
  call (EvSassCompile input_dir output_dir style) (sys_sass_compile sys input_dir output_dir style).

Definition print {sys : Sys} (text : string) : M sys unit :=
  call_total (EvPrint text) (fun w => (tt, sys_print sys text w)).

(** ** The HTML editor *)

(** [cut_prefix p s] is the rest of [s] after its prefix [p], if [s] starts
    with [p]. *)
Fixpoint cut_prefix (p s : string) : option string :=
  match p, s with
  | "", _ => Some s
  | String a p', String b s' => if Ascii.eqb a b then cut_prefix p' s' else None
  | String _ _, "" => None
  end.

(** [locate a s] cuts [s] at the first occurrence of [a]: the text before it and
    the text after it. *)
Fixpoint locate (a s : string) : option (string * string) :=
  match cut_prefix a s with
  | Some rest => Some ("", rest)
  | None =>
      match s with
      | "" => None
      | String c s' =>
          match locate a s' with
          | Some (before, rest) => Some (String c before, rest)
          | None => None
          end
      end
  end.

Record HtmlEditor : Type := {
  html : string;
  anchor : string;
  element : string;
  prepend : bool
}.

(** Modelled from the spec: [core/html_editor.py] is not among the sources.
    Section 4.3: locate the first occurrence of [anchor]; if [prepend] is true,
    insert the fragment immediately before the anchor; if false, insert it
    immediately after the anchor; if the anchor is not found, return the input
    unchanged. *)
Definition add_html (e : HtmlEditor) : string :=
  match locate (anchor e) (html e) with
  | None => html e
  | Some (before, rest) =>
      if prepend e
      then before ++ element e ++ anchor e ++ rest
      else before ++ anchor e ++ element e ++ rest
  end.

(** ** The generator *)

(** The double quote, which a string literal cannot hold. *)
Definition DQ : string := String "034"%char "".

(** The element of [add_utils]. *)
Definition dev_script : string :=
  "<script type='module' src=" ++ DQ ++ "/js/dev.js" ++ DQ ++ "></script>" ++ String Py.NL "".

(** The loop of [convert_to_html] over the lines still to be read. *)
Fixpoint scan_metadata (count : nat) (metadata : gmap string string) (lines : list string)
  : gmap string string :=
  match lines with
  | [] => metadata
  | line :: rest =>
      if Py.startswith line "---" then
        let count := count + 1 in
        if Nat.eqb count 2 then metadata
        else scan_metadata count metadata rest
      else
        match Py.split1 ":" line with
        | [key; value] => scan_metadata count (<[Py.strip key := Py.strip value]> metadata) rest
        | _ => scan_metadata count metadata rest
        end
  end.

(** The text handed to the Markdown converter: [lines[len(metadata) + 2:]]
    joined by newlines. *)
Definition body_text (metadata : gmap string string) (lines : list string) : string :=
  Py.join (String Py.NL "") (drop (size metadata + 2) lines).

Definition convert_to_html (sys : Sys) (input_text : string) : gmap string string * string :=
  let lines := Py.split Py.NL input_text in
  let metadata := scan_metadata 0 ∅ lines in
  (metadata, sys_markdown sys (body_text metadata lines)).

(** The keyword arguments of [template.render(content=html, **metadata)].  The
    call itself is a [TypeError], raised before the engine runs, when the
    metadata hold the key ['content'], which is then given twice, or the key
    ['self'], the name of the receiver of
    [Template.render(self, *args, **kwargs)]. *)
Definition render_kwargs (html : string) (metadata : gmap string string) : Res (gmap string string) :=
  match metadata !! "content" with
  | Some _ => Raised (TypeError "got multiple values for keyword argument 'content'")
  | None =>
      match metadata !! "self" with
      | Some _ => Raised (TypeError "got multiple values for argument 'self'")
      | None => Ok (<["content" := html]> metadata)
      end
  end.

Definition lift {sys : Sys} {A : Type} (r : Res A) : M sys A := fun s => (r, s).

Definition render {sys : Sys} (metadata : gmap string string) (html : string) : M sys string :=
  template <- env_get_template (default "default.html" (metadata !! "template")) ;;
  context <- lift (render_kwargs html metadata) ;;
  template_render template context.

(** One link of [collect_posts]. *)
Definition post_link (filename : string) : string :=
  let ext := "html" in
  let name := hd "" (Py.split "." filename) in
  "<a href='/html/blog/" ++ name ++ "." ++ ext ++ "' class='post-link'>"
  ++ Py.replace (Py.title name) "-" " "
  ++ "</a>".

Section Generator.

Context {sys : Sys}.
Variable CONFIG : Config.

Definition add_posts (input_text post_list : string) : string :=
  add_html {| html := input_text; anchor := POST_LIST_TARGET CONFIG;
              element := post_list; prepend := false |}.

Definition add_utils (input_text : string) : string :=
  add_html {| html := input_text; anchor := "</body>";
              element := dev_script; prepend := true |}.

Definition inject_html (output_text post_list : string) : string :=
  let updated_html := add_posts output_text post_list in
  if Bool.eqb (py_bool (DEBUG CONFIG)) true && Bool.eqb (py_bool (CLIENT_SIDE_ROUTING CONFIG)) false
  then add_utils updated_html
  else updated_html.

Definition determine_html_subdir (metadata : gmap string string) : string :=
  if bool_decide (metadata !! "template" = Some "post.html") then
    Py.path_join (OUTPUT_DIR CONFIG) ["html"; "blog"]
  else if negb (bool_decide (metadata !! "template" = Some "default.html")) then
    Py.path_join (OUTPUT_DIR CONFIG) ["html"]
  else
    OUTPUT_DIR CONFIG.

Definition collect_posts : M sys string :=
  filenames <- os_listdir (Py.path_join (INPUT_DIR CONFIG) ["blog"]) ;;
  ret (fold_left (fun contents filename => contents ++ post_link filename) filenames "").

Definition reset_dist : M sys unit :=
  shutil_rmtree (OUTPUT_DIR CONFIG) ;;
  os_makedirs (OUTPUT_DIR CONFIG) ;;
  os_makedirs (Py.path_join (OUTPUT_DIR CONFIG) ["html"; "blog"]).

(** The body of the loop of [convert_markdown]. *)
Definition convert_file (input_dir post_list filename : string) : M sys unit :=
  if Py.endswith filename ".md" then
    markdown_input <- read_file (Py.path_join input_dir [filename]) ;;
    let (metadata, html) := convert_to_html sys markdown_input in
    output_text <- render metadata html ;;
    let amended_output_text := inject_html output_text post_list in
    let write_dir := determine_html_subdir metadata in
    write_file (Py.path_join write_dir [Py.replace filename ".md" ".html"]) amended_output_text
  else ret tt.

Definition convert_markdown (input_dir post_list : string) : M sys unit :=
  filenames <- os_listdir input_dir ;;
  for_each filenames (convert_file input_dir post_list).

Definition copy_static_files (ext : string) : M sys unit :=
  let scripts_src := Py.path_join (STATIC_DIR CONFIG) [ext] in
  let scripts_dst := Py.path_join (OUTPUT_DIR CONFIG) [ext] in
  os_mkdir scripts_dst ;;
  filenames <- os_listdir scripts_src ;;
  for_each filenames (fun filename =>
    shutil_copyfile (Py.path_join scripts_src [filename]) (Py.path_join scripts_dst [filename])).

Definition compile_sass : M sys unit :=
  let input_dir := Py.path_join (STATIC_DIR CONFIG) ["scss"] in
  let output_dir := Py.path_join (OUTPUT_DIR CONFIG) ["css"] in
  let style :=
    if Bool.eqb (py_bool (DEBUG CONFIG)) true then "expanded"
    else CSS_OUTPUT_STYLE CONFIG in
  try_compile_error (sass_compile input_dir output_dir style) (fun e => print e).

Definition build_site : M sys unit :=
  build_start <- perf_counter ;;
  posts <- collect_posts ;;
  reset_dist ;;
  convert_markdown (INPUT_DIR CONFIG) posts ;;
  convert_markdown (Py.path_join (INPUT_DIR CONFIG) ["blog"]) posts ;;
  copy_static_files "js" ;;
  copy_static_files "img" ;;
  compile_sass ;;
  build_finish <- perf_counter ;;
  print ("Finished site build in " ++ sys_elapsed sys build_start build_finish ++ " second(s)").

End Generator.

(** ** Notions of the specification *)

(** A line that opens or closes the metadata block. *)
Definition is_delimiter (line : string) : bool := Py.startswith line "---".

Fixpoint has_char (c : ascii) (s : string) : bool :=
  match s with
  | "" => false
  | String a s' => Ascii.eqb a c || has_char c s'
  end.

Definition has_colon (line : string) : bool := has_char ":" line.

(** The key a colon-containing line is stored under. *)
Definition entry_key (line : string) : string := Py.strip (hd "" (Py.split1 ":" line)).

(** What the parser stores for the lines of a block: one entry per line with
    a colon, a later line replacing an earlier one with the same key. *)
Definition store_entry (metadata : gmap string string) (line : string) : gmap string string :=
  match Py.split1 ":" line with
  | [key; value] => <[Py.strip key := Py.strip value]> metadata
  | _ => metadata
  end.

Definition block_entries (metadata : gmap string string) (block : list string)
  : gmap string string :=
  fold_left store_entry block metadata.

(** The lines of a block that hold a colon. *)
Definition entry_lines (block : list string) : list string := List.filter has_colon block.

(** The value a colon-containing line is stored with. *)
Definition entry_value (line : string) : string := Py.strip (nth 1 (Py.split1 ":" line) "").

(** The lines of a document that are not delimiters. *)
Definition plain_lines (lines : list string) : list string :=
  List.filter (fun line => negb (is_delimiter line)) lines.

(** The positions of the delimiter lines, counted from [i]. *)
Fixpoint delimiter_positions (i : nat) (lines : list string) : list nat :=
  match lines with
  | [] => []
  | line :: rest =>
      if is_delimiter line then i :: delimiter_positions (S i) rest
      else delimiter_positions (S i) rest
  end.

(** The true index of the line that follows the closing delimiter. *)
Definition true_body_index (lines : list string) : option nat :=
  match delimiter_positions 0 lines with
  | _ :: closing :: _ => Some (S closing)
  | _ => None
  end.

(** The offset the parser uses instead. *)
Definition body_offset (metadata : gmap string string) : nat := size metadata + 2.

(** The colon-less lines of a block, which the parser skips. *)
Definition skipped_lines (block : list string) : list string :=
  List.filter (fun line => negb (has_colon line)) block.

(** "Hyphens replaced by spaces and each word capitalized", read word by
    word: the name is cut at its hyphens, each word gets an upper-case
    initial and lower-case rest, and the words are joined by blanks. *)
Fixpoint map_chars (f : ascii -> ascii) (s : string) : string :=
  match s with
  | "" => ""
  | String c s' => String (f c) (map_chars f s')
  end.

Definition lower_all (s : string) : string := map_chars Py.lower s.

Definition capitalize (s : string) : string :=
  match s with
  | "" => ""
  | String c s' => String (Py.upper c) (lower_all s')
  end.

Definition words_capitalized (name : string) : string :=
  Py.join " " (map capitalize (Py.split "-" name)).

Fixpoint all_chars (p : ascii -> bool) (s : string) : bool :=
  match s with
  | "" => true
  | String c s' => p c && all_chars p s'
  end.

(** A character below 128.  On these characters [Py.title_from], [Py.upper]
    and [Py.lower] are what Python computes; outside them Python's case
    mapping is another one. *)
Definition is_ascii (c : ascii) : bool := (nat_of_ascii c <? 128)%nat.

(** The text of a link, character by character: a hyphen becomes a blank; a
    letter is upper-cased when no letter stands before it and lower-cased when
    one does; any other character is kept.  [prev] is the character before,
    if any. *)
Definition after_letter (prev : option ascii) : bool :=
  match prev with
  | Some p => Py.iscased p
  | None => false
  end.

Definition link_char (prev : option ascii) (c : ascii) : ascii :=
  if Ascii.eqb c "-" then " "%char
  else if Py.iscased c then (if after_letter prev then Py.lower c else Py.upper c)
  else c.

Fixpoint link_text_from (prev : option ascii) (name : string) : string :=
  match name with
  | "" => ""
  | String c name' => String (link_char prev c) (link_text_from (Some c) name')
  end.

(** A character of a name made of letters and hyphens. *)
Definition name_char (c : ascii) : bool := Py.iscased c || Ascii.eqb c "-".

(** The words of a name whose first word follows a cased character
    ([after_cased]) or not. *)
Definition words_from (after_cased : bool) (words : list string) : list string :=
  match words with
  | [] => []
  | w :: ws => (if after_cased then lower_all w else capitalize w) :: map capitalize ws
  end.

(** The stages of the build, as section 4.6 names them. *)
Inductive Stage : Type :=
| ResetOutputTree
| CollectPostIndex
| ConvertMainDir
| ConvertBlogDir
| CopyStaticJS
| CopyStaticImg
| CompileStylesheets.

(** The order section 4.6 gives. *)
Definition spec_order : list Stage :=
  [ResetOutputTree; CollectPostIndex; ConvertMainDir; ConvertBlogDir;
   CopyStaticJS; CopyStaticImg; CompileStylesheets].

(** The order of the calls in [build_site]. *)
Definition build_order : list Stage :=
  [CollectPostIndex; ResetOutputTree; ConvertMainDir; ConvertBlogDir;
   CopyStaticJS; CopyStaticImg; CompileStylesheets].

Section Pipeline.

Context {sys : Sys}.
Variable CONFIG : Config.

(** One stage, run to completion; the post index is the only value passed
    from stage to stage. *)
Definition run_stage (st : Stage) (posts : string) : M sys string :=
  match st with
  | ResetOutputTree => reset_dist CONFIG ;; ret posts
  | CollectPostIndex => collect_posts CONFIG
  | ConvertMainDir => convert_markdown CONFIG (INPUT_DIR CONFIG) posts ;; ret posts
  | ConvertBlogDir =>
      convert_markdown CONFIG (Py.path_join (INPUT_DIR CONFIG) ["blog"]) posts ;; ret posts
  | CopyStaticJS => copy_static_files CONFIG "js" ;; ret posts
  | CopyStaticImg => copy_static_files CONFIG "img" ;; ret posts
  | CompileStylesheets => compile_sass CONFIG ;; ret posts
  end.

(** A linear state machine: each stage starts when the previous one has
    returned, and a stage that raises ends the run. *)
Fixpoint run_stages (stages : list Stage) (posts : string) : M sys string :=
  match stages with
  | [] => ret posts
  | st :: rest => posts' <- run_stage st posts ;; run_stages rest posts'
  end.

(** A build that runs its stages in the given order, between the two clock
    readings. *)
Definition staged_build (stages : list Stage) : M sys unit :=
  build_start <- perf_counter ;;
  run_stages stages "" ;;
  build_finish <- perf_counter ;;
  print ("Finished site build in " ++ sys_elapsed sys build_start build_finish ++ " second(s)").

End Pipeline.

(** A computation only adds events to the trace. *)
Definition trace_grows {sys : Sys} {A : Type} (m : M sys A) : Prop :=
  forall s, exists events, trace (m s).2 = (trace s ++ events)%list.

(** ** A small concrete system, to run the generator on *)

Record DemoWorld : Type := {
  demo_dirs : gmap string (list string);
  demo_files : gmap string string;
  demo_templates : list string;
  demo_console : list string
}.

Definition demo_listdir (p : string) (w : DemoWorld) : Res (list string) * DemoWorld :=
  match demo_dirs w !! p with
  | Some l => (Ok l, w)
  | None => (Raised (FileNotFoundError p), w)
  end.

Definition demo_rmtree (p : string) (w : DemoWorld) : DemoWorld :=
  {| demo_dirs := filter (fun kv => Py.startswith kv.1 p = false) (demo_dirs w);
     demo_files := filter (fun kv => Py.startswith kv.1 p = false) (demo_files w);
     demo_templates := demo_templates w;
     demo_console := demo_console w |}.

Definition demo_mkdir (p : string) (w : DemoWorld) : Res unit * DemoWorld :=
  match demo_dirs w !! p with
  | Some _ => (Raised (FileExistsError p), w)
  | None =>
      (Ok tt, {| demo_dirs := <[p := [] ]> (demo_dirs w);
                 demo_files := demo_files w;
                 demo_templates := demo_templates w;
                 demo_console := demo_console w |})
  end.

Definition demo_write_file (p text : string) (w : DemoWorld) : Res unit * DemoWorld :=
  (Ok tt, {| demo_dirs := demo_dirs w;
             demo_files := <[p := text]> (demo_files w);
             demo_templates := demo_templates w;
             demo_console := demo_console w |}).

Definition demo_read_file (p : string) (w : DemoWorld) : Res string * DemoWorld :=
  match demo_files w !! p with
  | Some text => (Ok text, w)
  | None => (Raised (FileNotFoundError p), w)
  end.

Definition demo_copyfile (src dst : string) (w : DemoWorld) : Res unit * DemoWorld :=
  match demo_files w !! src with
  | Some text => demo_write_file dst text w
  | None => (Raised (FileNotFoundError src), w)
  end.

Definition demo_get_template (name : string) (w : DemoWorld) : Res string * DemoWorld :=
  if existsb (String.eqb name) (demo_templates w) then (Ok name, w)
  else (Raised (TemplateNotFound name), w).

Definition demo_render (t : string) (context : gmap string string) (w : DemoWorld)
  : Res string * DemoWorld :=
  (Ok ("<html><body>" ++ default "" (context !! "content") ++ "</body></html>"), w).

Definition demo_print (text : string) (w : DemoWorld) : DemoWorld :=
  {| demo_dirs := demo_dirs w;
     demo_files := demo_files w;
     demo_templates := demo_templates w;
     demo_console := demo_console w ++ [text] |}.

Definition demo_sys : Sys := {|
  World := DemoWorld;
  Template := string;
  Time := unit;
  sys_perf_counter := fun w => (tt, w);
  sys_listdir := demo_listdir;
  sys_rmtree := demo_rmtree;
  sys_makedirs := demo_mkdir;
  sys_mkdir := demo_mkdir;
  sys_copyfile := demo_copyfile;
  sys_read_file := demo_read_file;
  sys_write_file := demo_write_file;
  sys_get_template := demo_get_template;
  sys_render := demo_render;
  sys_sass_compile := fun _ _ _ w => (Ok tt, w);
  sys_print := demo_print;
  sys_markdown := fun text => text;
  sys_elapsed := fun _ _ => "0.0"
|}.

Definition demo_config : Config := {|
  INPUT_DIR := "content";
  OUTPUT_DIR := "dist";
  STATIC_DIR := "static";
  DEBUG := Some true;
  CLIENT_SIDE_ROUTING := Some false;
  CSS_OUTPUT_STYLE := "compact";
  POST_LIST_TARGET := "<div id='posts'>"
|}.

(** Lines joined by ['\n']. *)
Definition text_of (lines : list string) : string := Py.join (String Py.NL "") lines.

(** A site with a home page without front matter and one blog post. *)
Definition demo_world : DemoWorld := {|
  demo_dirs :=
    <["content" := ["index.md"; "blog"; "notes.txt"] ]>
    (<["content/blog" := ["my-first-post.md"] ]>
    (<["static/js" := ["dev.js"] ]>
    (<["static/img" := [] ]> ∅)));
  demo_files :=
    <["content/index.md" := text_of ["# Home"; ""; "Welcome"] ]>
    (<["content/blog/my-first-post.md" :=
         text_of ["---"; "title: First"; "template: post.html"; "---"; "Hello"] ]>
    (<["static/js/dev.js" := "console.log(1)"]> ∅));
  demo_templates := ["default.html"; "post.html"];
  demo_console := []
|}.

Definition demo_state : State demo_sys :=
  Build_State demo_sys demo_world [].

(** The same site with two more pages; the first of them names a template
    that does not exist. *)
Definition broken_world : DemoWorld := {|
  demo_dirs := <["content" := ["index.md"; "about.md"; "contact.md"] ]> (demo_dirs demo_world);
  demo_files :=
    <["content/about.md" := text_of ["---"; "template: fancy.html"; "---"; "About"] ]>
    (<["content/contact.md" := text_of ["---"; "template: default.html"; "---"; "Mail"] ]>
     (demo_files demo_world));
  demo_templates := demo_templates demo_world;
  demo_console := []
|}.

Definition broken_state : State demo_sys :=
  Build_State demo_sys broken_world [].

(** The small site with another post, whose name holds a digit. *)
Definition second_post_world : DemoWorld := {|
  demo_dirs := <["content/blog" := ["my-2nd-post.md"] ]> (demo_dirs demo_world);
  demo_files := demo_files demo_world;
  demo_templates := demo_templates demo_world;
  demo_console := []
|}.

Definition second_post_state : State demo_sys :=
  Build_State demo_sys second_post_world [].

(** The small site with a script directory that lists a file which is not
    there. *)
Definition missing_script_world : DemoWorld := {|
  demo_dirs := <["static/js" := ["dev.js"; "gone.js"; "late.js"] ]> (demo_dirs demo_world);
  demo_files := <["static/js/late.js" := "console.log(2)"]> (demo_files demo_world);
  demo_templates := demo_templates demo_world;
  demo_console := []
|}.

Definition missing_script_state : State demo_sys :=
  Build_State demo_sys missing_script_world [].

(** A site without a blog directory, with a page left from an earlier
    build. *)
Definition stale_world : DemoWorld := {|
  demo_dirs := delete "content/blog" (demo_dirs demo_world);
  demo_files := <["dist/old.html" := "<html></html>"]> (demo_files demo_world);
  demo_templates := demo_templates demo_world;
  demo_console := []
|}.

Definition stale_state : State demo_sys :=
  Build_State demo_sys stale_world [].



(** The entries [convert_markdown] converts. *)
Definition markdown_entries (filenames : list string) : list string :=
  List.filter (fun filename => Py.endswith filename ".md") filenames.

(** The call that copies one entry of a static directory. *)
Definition copy_event (src dst filename : string) : Event :=
  EvCopyfile (Py.path_join src [filename]) (Py.path_join dst [filename]).

(** The style [compile_sass] asks for. *)
Definition sass_style (CONFIG : Config) : string :=
  if py_bool (DEBUG CONFIG) then "expanded" else CSS_OUTPUT_STYLE CONFIG.

(** The line [build_site] prints at its end. *)
Definition duration_line (sys : Sys) (start finish : Time sys) : string :=
  "Finished site build in " ++ sys_elapsed sys start finish ++ " second(s)".

(** The small system with a stylesheet compiler that rejects its input. *)
Definition bad_scss_sys : Sys := {|
  World := DemoWorld;
  Template := string;
  Time := unit;
  sys_perf_counter := fun w => (tt, w);
  sys_listdir := demo_listdir;
  sys_rmtree := demo_rmtree;
  sys_makedirs := demo_mkdir;
  sys_mkdir := demo_mkdir;
  sys_copyfile := demo_copyfile;
  sys_read_file := demo_read_file;
  sys_write_file := demo_write_file;
  sys_get_template := demo_get_template;
  sys_render := demo_render;
  sys_sass_compile := fun _ _ _ w => (Raised (CompileError "Error: expected '}'"), w);
  sys_print := demo_print;
  sys_markdown := fun text => text;
  sys_elapsed := fun _ _ => "0.0"
|}.

Definition bad_scss_state : State bad_scss_sys :=
  Build_State bad_scss_sys demo_world [].

(** * Properties *)

(** ** Strings *)

#[local] Arguments String.append !_ _ / : simpl nomatch.

Lemma str_app_assoc (a b c : string) : (a ++ b) ++ c = a ++ b ++ c.
Proof. induction a as [|x a IH]; simpl; [reflexivity | now rewrite IH]. Qed.

Lemma str_app_nil_r (a : string) : a ++ "" = a.
Proof. induction a as [|x a IH]; simpl; [reflexivity | now rewrite IH]. Qed.

Lemma str_app_length (a b : string) :
  String.length (a ++ b) = String.length a + String.length b.
Proof. induction a as [|x a IH]; simpl; [reflexivity | now rewrite IH]. Qed.

Lemma str_app_neq_self (a b : string) : b <> "" -> a ++ b <> a.
Proof.
  intros Hb Heq. apply (f_equal String.length) in Heq.
  rewrite str_app_length in Heq. destruct b; [congruence | simpl in Heq; lia].
Qed.

Lemma str_app_inv_head (a b c : string) : a ++ b = a ++ c -> b = c.
Proof. induction a as [|x a IH]; simpl; intros H; [exact H | injection H; auto]. Qed.

(** ** The output router *)

Lemma path_join_html_neq (root : string) : Py.path_join root ["html"] <> root.
Proof.
  unfold Py.path_join, Py.path_join2; simpl.
  destruct (String.eqb root "" || Py.endswith root "/");
    apply str_app_neq_self; discriminate.
Qed.

(** The three branches of the router, by the value [metadata.get('template')]
    returns. *)
Lemma determine_html_subdir_cases (CONFIG : Config) (metadata : gmap string string) :
  (metadata !! "template" = Some "post.html" ->
   determine_html_subdir CONFIG metadata = Py.path_join (OUTPUT_DIR CONFIG) ["html"; "blog"]) /\
  (metadata !! "template" = Some "default.html" ->
   determine_html_subdir CONFIG metadata = OUTPUT_DIR CONFIG) /\
  (metadata !! "template" <> Some "post.html" ->
   metadata !! "template" <> Some "default.html" ->
   determine_html_subdir CONFIG metadata = Py.path_join (OUTPUT_DIR CONFIG) ["html"]).
Proof.
  unfold determine_html_subdir. repeat split.
  - intros H. rewrite bool_decide_eq_true_2 by exact H. reflexivity.
  - intros H. rewrite bool_decide_eq_false_2 by (rewrite H; discriminate).
    rewrite (bool_decide_eq_true_2 _ H). reflexivity.
  - intros H1 H2. rewrite bool_decide_eq_false_2 by exact H1.
    rewrite bool_decide_eq_false_2 by exact H2. reflexivity.
Qed.

(** C1. The router compares [metadata.get('template')] itself with
    ['default.html']: for a mapping without the key the value is [None], which
    differs from ['default.html'], so the page goes to [<output root>/html] and
    not to the output root, although [render] gives such a page the template
    ['default.html']. *)
Theorem determine_html_subdir_without_template (CONFIG : Config) (metadata : gmap string string) :
  metadata !! "template" = None ->
  determine_html_subdir CONFIG metadata = Py.path_join (OUTPUT_DIR CONFIG) ["html"] /\
  determine_html_subdir CONFIG metadata <> OUTPUT_DIR CONFIG /\
  default "default.html" (metadata !! "template") = "default.html".
Proof.
  intros H.
  destruct (determine_html_subdir_cases CONFIG metadata) as (_ & _ & Hother).
  assert (Heq : determine_html_subdir CONFIG metadata = Py.path_join (OUTPUT_DIR CONFIG) ["html"])
    by (apply Hother; rewrite H; discriminate).
  split; [exact Heq |]. split.
  - rewrite Heq. apply path_join_html_neq.
  - rewrite H. reflexivity.
Qed.

Lemma determine_html_subdir_without_template_witness :
  (∅ : gmap string string) !! "template" = None /\
  determine_html_subdir demo_config ∅ = "dist/html".
Proof.
  split; [reflexivity |].
  destruct (determine_html_subdir_without_template demo_config ∅) as [H _]; [reflexivity |].
  exact H.
Defined.

(** ** The anchor-find-and-splice primitive *)

Lemma cut_prefix_sound (p s r : string) : cut_prefix p s = Some r -> s = p ++ r.
Proof.
  revert s; induction p as [|a p IH]; intros s H; simpl in *.
  - congruence.
  - destruct s as [|b s]; [discriminate |].
    destruct (Ascii.eqb_spec a b) as [->|]; [| discriminate].
    f_equal. now apply IH.
Qed.

Lemma cut_prefix_append (p r : string) : cut_prefix p (p ++ r) = Some r.
Proof.
  induction p as [|a p IH]; simpl.
  - now destruct r.
  - now rewrite Ascii.eqb_refl.
Qed.

(** [locate] cuts at an occurrence of the anchor ... *)
Lemma locate_sound (a s before rest : string) :
  locate a s = Some (before, rest) -> s = before ++ a ++ rest.
Proof.
  revert before; induction s as [|c s IH]; intros before H; simpl in H.
  - destruct (cut_prefix a "") eqn:E; [| discriminate].
    injection H as <- <-. simpl. now apply cut_prefix_sound.
  - destruct (cut_prefix a (String c s)) eqn:E.
    + injection H as <- <-. simpl. now apply cut_prefix_sound.
    + destruct (locate a s) as [[b r]|]; [| discriminate].
      injection H as <- <-. simpl. f_equal. now apply IH.
Qed.

(** ... which is the first one ... *)
Lemma locate_first (a s before rest : string) :
  locate a s = Some (before, rest) ->
  forall before' rest', s = before' ++ a ++ rest' ->
  String.length before <= String.length before'.
Proof.
  revert before; induction s as [|c s IH]; intros before H before' rest' Hs; simpl in H.
  - destruct (cut_prefix a "") eqn:E; [| discriminate].
    injection H as <- <-. simpl. lia.
  - destruct (cut_prefix a (String c s)) eqn:E.
    + injection H as <- <-. simpl. lia.
    + destruct (locate a s) as [[b r]|] eqn:El; [| discriminate].
      injection H as <- <-.
      destruct before' as [|c' before'].
      * simpl in Hs. rewrite Hs, cut_prefix_append in E. discriminate.
      * simpl in Hs. injection Hs as -> Hs. simpl.
        apply le_n_S. now apply (IH b eq_refl before' rest').
Qed.

(** ... and finds one whenever the anchor occurs. *)
Lemma locate_complete (a s before rest : string) :
  s = before ++ a ++ rest -> locate a s <> None.
Proof.
  revert s; induction before as [|c before IH]; intros s ->.
  - simpl. destruct (a ++ rest) eqn:E; simpl;
      rewrite <- E, cut_prefix_append; discriminate.
  - simpl. destruct (cut_prefix a (String c (before ++ a ++ rest))); [discriminate |].
    specialize (IH _ eq_refl).
    destruct (locate a (before ++ a ++ rest)) as [[b r]|]; [discriminate | congruence].
Qed.

(** ** The content injector *)

Lemma add_utils_located (input_text before rest : string) :
  locate "</body>" input_text = Some (before, rest) ->
  add_utils input_text = before ++ dev_script ++ "</body>" ++ rest.
Proof. intros H. unfold add_utils, add_html; simpl. now rewrite H. Qed.

(** Without the anchor the page is left as it is, whatever the flags. *)
Lemma inject_html_without_body (CONFIG : Config) (output_text post_list : string) :
  locate "</body>" (add_posts CONFIG output_text post_list) = None ->
  inject_html CONFIG output_text post_list = add_posts CONFIG output_text post_list.
Proof.
  intros H. unfold inject_html.
  destruct (_ && _); [| reflexivity].
  unfold add_utils, add_html; simpl. now rewrite H.
Qed.

(** A rendered page without ['</body>'], under [DEBUG] true and
    [CLIENT_SIDE_ROUTING] false: the development script is not inserted. *)
Lemma inject_html_dev_utils_counterexample :
  py_bool (DEBUG demo_config) = true /\
  py_bool (CLIENT_SIDE_ROUTING demo_config) = false /\
  inject_html demo_config "<html><p>Hi</p></html>" "" = "<html><p>Hi</p></html>".
Proof. repeat split. Qed.

(** C7 (amended). On a page that holds ['</body>'] the development script,
    the tag [<script type='module' src="/js/dev.js"></script>] and a newline,
    goes into the page, immediately before the first ['</body>'], exactly when
    [DEBUG] is true and [CLIENT_SIDE_ROUTING] is false.  Under each of the
    other three combinations of the two flags, and on every page without
    ['</body>'], the page leaves [inject_html] as [add_posts] returned it. *)
Theorem inject_html_dev_utils (CONFIG : Config) :
  let debug := py_bool (DEBUG CONFIG) in
  let csr := py_bool (CLIENT_SIDE_ROUTING CONFIG) in
  dev_script =
    "<script type='module' src="
    ++ String "034" ("/js/dev.js" ++ String "034" ("></script>" ++ String "010" "")) /\
  (forall output_text post_list,
     ~ (debug = true /\ csr = false) ->
     inject_html CONFIG output_text post_list = add_posts CONFIG output_text post_list) /\
  (forall output_text post_list,
     (forall before rest, add_posts CONFIG output_text post_list <> before ++ "</body>" ++ rest) ->
     inject_html CONFIG output_text post_list = add_posts CONFIG output_text post_list) /\
  (forall output_text post_list before rest,
     locate "</body>" (add_posts CONFIG output_text post_list) = Some (before, rest) ->
     add_posts CONFIG output_text post_list = before ++ "</body>" ++ rest /\
     (forall before' rest',
        add_posts CONFIG output_text post_list = before' ++ "</body>" ++ rest' ->
        String.length before <= String.length before') /\
     (debug = true /\ csr = false ->
      inject_html CONFIG output_text post_list = before ++ dev_script ++ "</body>" ++ rest) /\
     (inject_html CONFIG output_text post_list <> add_posts CONFIG output_text post_list <->
      debug = true /\ csr = false)) /\
  (forall output_text post_list before rest,
     add_posts CONFIG output_text post_list = before ++ "</body>" ++ rest ->
     exists before0 rest0,
       locate "</body>" (add_posts CONFIG output_text post_list) = Some (before0, rest0)).
Proof.
  intros debug csr.
  assert (Hoff : forall output_text post_list,
     ~ (debug = true /\ csr = false) ->
     inject_html CONFIG output_text post_list = add_posts CONFIG output_text post_list).
  { intros output_text post_list Hn. unfold inject_html. fold debug csr.
    destruct debug, csr; simpl; try reflexivity. exfalso; apply Hn; now split. }
  split; [reflexivity |]. split; [exact Hoff |]. split; [| split].
  - intros output_text post_list Habsent. apply inject_html_without_body.
    destruct (locate "</body>" (add_posts CONFIG output_text post_list))
      as [[before rest]|] eqn:Hloc; [| reflexivity].
    exfalso. apply (Habsent before rest). now apply locate_sound.
  - intros output_text post_list before rest Hloc.
    pose proof (locate_sound _ _ _ _ Hloc) as Hs.
    assert (Hon : debug = true /\ csr = false ->
       inject_html CONFIG output_text post_list = before ++ dev_script ++ "</body>" ++ rest).
    { intros [Hd Hc]. unfold inject_html. fold debug csr. rewrite Hd, Hc. simpl.
      now apply add_utils_located. }
    split; [exact Hs |]. split; [exact (locate_first _ _ _ _ Hloc) |].
    split; [exact Hon |]. split.
    + intros Hne. destruct debug eqn:Hd, csr eqn:Hc; try (now split);
        exfalso; apply Hne, Hoff; intros [? ?]; discriminate.
    + intros Hdc. rewrite (Hon Hdc), Hs. intros Heq.
      apply str_app_inv_head in Heq. discriminate.
  - intros output_text post_list before rest Hs.
    pose proof (locate_complete "</body>" _ before rest Hs) as Hne.
    destruct (locate "</body>" (add_posts CONFIG output_text post_list))
      as [[before0 rest0]|]; [now exists before0, rest0 | congruence].
Qed.

Lemma inject_html_dev_utils_witness :
  inject_html demo_config "<html><body>Hi</body></html>" "" =
  "<html><body>Hi<script type='module' src="
  ++ String "034" ("/js/dev.js" ++ String "034" ("></script>" ++ String "010" "</body></html>")).
Proof.
  destruct (inject_html_dev_utils demo_config) as (Hscript & _ & _ & H & _).
  destruct (H "<html><body>Hi</body></html>" "" "<html><body>Hi" "</html>" eq_refl)
    as (_ & _ & Hon & _).
  rewrite Hon by (split; reflexivity). rewrite Hscript. reflexivity.
Defined.

(** ** The front-matter parser *)

Lemma split1_shape (sep : ascii) (s : string) :
  (has_char sep s = false /\ Py.split1 sep s = [s]) \/
  (has_char sep s = true /\ exists key value, Py.split1 sep s = [key; value]).
Proof.
  induction s as [|c s IH]; simpl.
  - left. now split.
  - destruct (Ascii.eqb c sep) eqn:E; simpl.
    + right. split; [reflexivity |]. now exists "", s.
    + destruct IH as [[Hn ->] | [Hy (key & value & ->)]].
      * left. now split.
      * right. split; [exact Hy |]. now exists (String c key), value.
Qed.

Lemma store_entry_no_colon (metadata : gmap string string) (line : string) :
  has_colon line = false -> store_entry metadata line = metadata.
Proof.
  intros H. unfold store_entry.
  destruct (split1_shape ":" line) as [[_ ->] | [Hy _]]; [reflexivity |].
  unfold has_colon in H. congruence.
Qed.

Lemma store_entry_colon (metadata : gmap string string) (line : string) :
  has_colon line = true ->
  exists value, store_entry metadata line = <[entry_key line := value]> metadata.
Proof.
  intros H. unfold store_entry, entry_key.
  destruct (split1_shape ":" line) as [[Hn _] | [_ (key & value & ->)]].
  - unfold has_colon in H. congruence.
  - now exists (Py.strip value).
Qed.

(** Up to the closing delimiter the loop stores the lines of the block, and
    it stops there. *)
Lemma scan_metadata_block (metadata : gmap string string) (block : list string)
    (closing : string) (rest : list string) :
  Forall (fun line => is_delimiter line = false) block ->
  is_delimiter closing = true ->
  scan_metadata 1 metadata (block ++ closing :: rest) = block_entries metadata block.
Proof.
  intros Hblock Hclosing. revert metadata.
  induction Hblock as [|line block Hline _ IH]; intros metadata; simpl.
  - unfold is_delimiter in Hclosing. now rewrite Hclosing.
  - unfold is_delimiter in Hline. rewrite Hline.
    unfold block_entries in *. simpl. unfold store_entry at 2.
    destruct (Py.split1 ":" line) as [|key [|value [|? ?]]]; apply IH.
Qed.

(** Without a delimiter the loop reads every line. *)
Lemma scan_metadata_no_delimiter (count : nat) (metadata : gmap string string)
    (lines : list string) :
  Forall (fun line => is_delimiter line = false) lines ->
  scan_metadata count metadata lines = block_entries metadata lines.
Proof.
  intros Hlines. revert metadata.
  induction Hlines as [|line lines Hline _ IH]; intros metadata; simpl.
  - reflexivity.
  - unfold is_delimiter in Hline. rewrite Hline.
    unfold block_entries in *. simpl. unfold store_entry at 2.
    destruct (Py.split1 ":" line) as [|key [|value [|? ?]]]; apply IH.
Qed.

Lemma block_entries_no_colon (metadata : gmap string string) (block : list string) :
  Forall (fun line => has_colon line = false) block ->
  block_entries metadata block = metadata.
Proof.
  intros H. induction H as [|line block Hline _ IH]; unfold block_entries in *; simpl.
  - reflexivity.
  - now rewrite store_entry_no_colon.
Qed.

(** With pairwise distinct keys, none of them stored before, every line with a
    colon adds one entry. *)
Lemma block_entries_size (metadata : gmap string string) (block : list string) :
  NoDup (map entry_key (entry_lines block)) ->
  (forall line, In line (entry_lines block) -> metadata !! entry_key line = None) ->
  size (block_entries metadata block) = size metadata + length (entry_lines block).
Proof.
  revert metadata. induction block as [|line block IH]; intros metadata Hnd Hfresh.
  - simpl. unfold block_entries. simpl. lia.
  - unfold block_entries, entry_lines in *. simpl in *.
    destruct (has_colon line) eqn:Hc.
    + simpl in *. apply NoDup_cons in Hnd as [Hnotin Hnd].
      destruct (store_entry_colon metadata line Hc) as [value ->].
      rewrite IH.
      * rewrite map_size_insert_None by (apply Hfresh; now left). lia.
      * exact Hnd.
      * intros l Hl. rewrite lookup_insert_ne; [apply Hfresh; now right |].
        intros Heq. apply Hnotin. rewrite Heq.
        apply list_elem_of_In, in_map, Hl.
    + rewrite store_entry_no_colon by exact Hc. now apply IH.
Qed.

Lemma entry_skipped_length (block : list string) :
  length (entry_lines block) + length (skipped_lines block) = length block.
Proof.
  unfold entry_lines, skipped_lines.
  induction block as [|line block IH]; simpl; [reflexivity |].
  destruct (has_colon line); simpl; lia.
Qed.

Lemma entry_lines_all (block : list string) :
  Forall (fun line => has_colon line = true) block -> entry_lines block = block.
Proof.
  unfold entry_lines. intros H; induction H as [|line block Hline _ IH]; simpl.
  - reflexivity.
  - now rewrite Hline, IH.
Qed.

Lemma delimiter_positions_skip (i : nat) (block rest : list string) :
  Forall (fun line => is_delimiter line = false) block ->
  delimiter_positions i (block ++ rest) = delimiter_positions (i + length block) rest.
Proof.
  intros H. revert i. induction H as [|line block Hline _ IH]; intros i; simpl.
  - now rewrite Nat.add_0_r.
  - rewrite Hline, IH. f_equal. lia.
Qed.

(** The index after the closing delimiter of a block that opens the
    document. *)
Lemma true_body_index_block (opening closing : string) (block rest : list string) :
  is_delimiter opening = true ->
  Forall (fun line => is_delimiter line = false) block ->
  is_delimiter closing = true ->
  true_body_index (opening :: block ++ closing :: rest) = Some (length block + 2).
Proof.
  intros Ho Hb Hc. unfold true_body_index. simpl. rewrite Ho.
  rewrite delimiter_positions_skip by exact Hb. simpl. rewrite Hc.
  f_equal. lia.
Qed.

(** The parser on a document that opens with a block: the metadata are the
    entries of the block, and with distinct keys the offset falls short of the
    true index by the number of skipped lines. *)
Lemma scan_opening_block (opening closing : string) (block rest : list string) :
  is_delimiter opening = true ->
  Forall (fun line => is_delimiter line = false) block ->
  is_delimiter closing = true ->
  NoDup (map entry_key (entry_lines block)) ->
  let lines := opening :: block ++ closing :: rest in
  let metadata := scan_metadata 0 ∅ lines in
  metadata = block_entries ∅ block /\
  size metadata = length (entry_lines block) /\
  true_body_index lines = Some (body_offset metadata + length (skipped_lines block)).
Proof.
  intros Ho Hb Hc Hnd lines metadata.
  assert (Hm : metadata = block_entries ∅ block).
  { unfold metadata, lines. simpl. unfold is_delimiter in Ho. rewrite Ho. simpl.
    now apply scan_metadata_block. }
  assert (Hsize : size metadata = length (entry_lines block)).
  { rewrite Hm, block_entries_size; [now rewrite map_size_empty | exact Hnd |].
    intros; apply lookup_empty. }
  repeat split; [exact Hm | exact Hsize |].
  unfold lines. rewrite true_body_index_block by assumption.
  unfold body_offset. rewrite Hsize. f_equal.
  pose proof (entry_skipped_length block). lia.
Qed.

(** A document without front matter, whose first line holds a colon: the line
    becomes an entry, and three lines are taken off the body. *)
Lemma no_delimiter_metadata_counterexample :
  let input_text := text_of ["Note: draft"; "first"; "second"; "third"] in
  Forall (fun line => is_delimiter line = false) (Py.split Py.NL input_text) /\
  (convert_to_html demo_sys input_text).1 <> ∅ /\
  (convert_to_html demo_sys input_text).1 !! "Note" = Some "draft" /\
  body_offset (convert_to_html demo_sys input_text).1 = 3 /\
  (convert_to_html demo_sys input_text).2 = "third".
Proof.
  cbv zeta. split; [| split; [| split; [| split]]].
  - vm_compute. repeat constructor.
  - intros H. apply (f_equal (fun m : gmap string string => m !! "Note")) in H.
    vm_compute in H. discriminate.
  - vm_compute. reflexivity.
  - vm_compute. reflexivity.
  - vm_compute. reflexivity.
Qed.

(** C3 (amended). For a document without a delimiter line and without a colon
    the parser returns an empty mapping, and the body is the input minus its
    first two lines. *)
Theorem convert_to_html_no_delimiter_no_colon (sys : Sys) (input_text : string) :
  let lines := Py.split Py.NL input_text in
  Forall (fun line => is_delimiter line = false) lines ->
  Forall (fun line => has_colon line = false) lines ->
  (convert_to_html sys input_text).1 = ∅ /\
  body_offset (convert_to_html sys input_text).1 = 2 /\
  (convert_to_html sys input_text).2 = sys_markdown sys (text_of (drop 2 lines)).
Proof.
  intros lines Hd Hc. unfold convert_to_html. fold lines. simpl.
  assert (Hm : scan_metadata 0 ∅ lines = ∅).
  { rewrite scan_metadata_no_delimiter by exact Hd.
    now apply block_entries_no_colon. }
  rewrite Hm. unfold body_offset, body_text, text_of.
  rewrite map_size_empty. repeat split.
Qed.

Lemma convert_to_html_no_delimiter_no_colon_witness :
  (convert_to_html demo_sys (text_of ["# Home"; ""; "Welcome"; "back"])).2 =
  text_of ["Welcome"; "back"].
Proof.
  destruct (convert_to_html_no_delimiter_no_colon demo_sys
              (text_of ["# Home"; ""; "Welcome"; "back"])) as (_ & _ & H).
  - vm_compute. repeat constructor.
  - vm_compute. repeat constructor.
  - exact H.
Defined.

(** A block whose two lines both hold a colon, under the same key: one entry,
    offset 3, while the body starts at line 4; the closing delimiter becomes
    the first line of the body. *)
Lemma body_offset_all_colon_counterexample :
  let lines := ["---"; "tag: a"; "tag: b"; "---"; "Hello"] in
  let metadata := (convert_to_html demo_sys (text_of lines)).1 in
  Py.split Py.NL (text_of lines) = "---" :: ["tag: a"; "tag: b"] ++ "---" :: ["Hello"] /\
  Forall (fun line => is_delimiter line = false /\ has_colon line = true) ["tag: a"; "tag: b"] /\
  body_offset metadata = 3 /\
  true_body_index lines = Some 4 /\
  drop (body_offset metadata) lines = ["---"; "Hello"].
Proof.
  cbv zeta. split; [| split; [| split; [| split]]].
  - vm_compute. reflexivity.
  - repeat constructor.
  - vm_compute. reflexivity.
  - vm_compute. reflexivity.
  - vm_compute. reflexivity.
Qed.

(** C5 (amended). When the block opens the document, every line between the
    delimiters holds a colon, and the keys of these lines differ from one
    another, the offset [len(metadata) + 2] is the index of the line after the
    closing delimiter, and the body is the text after that delimiter. *)
Theorem body_offset_all_colon (sys : Sys) (input_text opening closing : string)
    (block rest : list string) :
  Py.split Py.NL input_text = opening :: block ++ closing :: rest ->
  is_delimiter opening = true ->
  is_delimiter closing = true ->
  Forall (fun line => is_delimiter line = false /\ has_colon line = true) block ->
  NoDup (map entry_key block) ->
  let lines := Py.split Py.NL input_text in
  let metadata := (convert_to_html sys input_text).1 in
  true_body_index lines = Some (body_offset metadata) /\
  body_offset metadata = length block + 2 /\
  drop (body_offset metadata) lines = rest /\
  (convert_to_html sys input_text).2 = sys_markdown sys (text_of rest).
Proof.
  intros Hsplit Ho Hc Hblock Hnd lines metadata.
  assert (Hb : Forall (fun line => is_delimiter line = false) block)
    by (eapply Forall_impl; [exact Hblock | now intros ? [? ?]]).
  assert (Hall : entry_lines block = block)
    by (apply entry_lines_all; eapply Forall_impl; [exact Hblock | now intros ? [? ?]]).
  assert (Hskip : length (skipped_lines block) = 0)
    by (pose proof (entry_skipped_length block) as E; rewrite Hall in E; lia).
  destruct (scan_opening_block opening closing block rest Ho Hb Hc) as (_ & Hsize & Htrue).
  { now rewrite Hall. }
  rewrite Hall in Hsize. rewrite Hskip, Nat.add_0_r in Htrue.
  assert (Hmeta : metadata = scan_metadata 0 ∅ (opening :: block ++ closing :: rest))
    by (unfold metadata, convert_to_html; simpl; now rewrite Hsplit).
  assert (Hoff : body_offset metadata = length block + 2)
    by (unfold body_offset; rewrite Hmeta, Hsize; reflexivity).
  assert (Hdrop : drop (body_offset metadata) lines = rest).
  { unfold lines. rewrite Hsplit, Hoff, Nat.add_comm. simpl.
    rewrite cons_middle, app_assoc. apply drop_app_length'.
    rewrite length_app. simpl. lia. }
  repeat split.
  - unfold lines. rewrite Hsplit, Hmeta. exact Htrue.
  - exact Hoff.
  - exact Hdrop.
  - unfold convert_to_html, body_text, text_of. simpl. f_equal. f_equal. exact Hdrop.
Qed.

Lemma body_offset_all_colon_witness :
  (convert_to_html demo_sys
     (text_of ["---"; "title: First"; "template: post.html"; "---"; "Hello"])).2 = "Hello".
Proof.
  destruct (body_offset_all_colon demo_sys
              (text_of ["---"; "title: First"; "template: post.html"; "---"; "Hello"])
              "---" "---" ["title: First"; "template: post.html"] ["Hello"])
    as (_ & _ & _ & H).
  - vm_compute. reflexivity.
  - reflexivity.
  - reflexivity.
  - repeat constructor.
  - apply (bool_decide_unpack (NoDup _)). vm_compute. exact I.
  - exact H.
Defined.

(** Two blocks with one skipped line each.  In the first the two entries share
    their key, and the offset is two lines short; in the second a line comes
    before the opening delimiter, and the offset is again two lines short. *)
Lemma body_offset_skipped_lines_counterexample :
  (let lines := ["---"; "tag: a"; "tag: b"; "note"; "---"; "Hello"] in
   let metadata := (convert_to_html demo_sys (text_of lines)).1 in
   Py.split Py.NL (text_of lines) = lines /\
   skipped_lines ["tag: a"; "tag: b"; "note"] = ["note"] /\
   body_offset metadata = 3 /\
   true_body_index lines = Some 5) /\
  (let lines := ["intro"; "---"; "note"; "---"; "Hello"] in
   let metadata := (convert_to_html demo_sys (text_of lines)).1 in
   Py.split Py.NL (text_of lines) = lines /\
   skipped_lines ["note"] = ["note"] /\
   body_offset metadata = 2 /\
   true_body_index lines = Some 4).
Proof.
  cbv zeta. repeat split; vm_compute; reflexivity.
Qed.

(** C6 (amended). When the block opens the document, the keys of its lines
    with a colon differ from one another, and at least one of its lines has no
    colon, the offset [len(metadata) + 2] is less than the index of the line
    after the closing delimiter by the number of skipped lines, and the body
    starts that many lines too early. *)
Theorem body_offset_skipped_lines (sys : Sys) (input_text opening closing : string)
    (block rest : list string) :
  Py.split Py.NL input_text = opening :: block ++ closing :: rest ->
  is_delimiter opening = true ->
  is_delimiter closing = true ->
  Forall (fun line => is_delimiter line = false) block ->
  skipped_lines block <> [] ->
  NoDup (map entry_key (entry_lines block)) ->
  let lines := Py.split Py.NL input_text in
  let metadata := (convert_to_html sys input_text).1 in
  let skipped := length (skipped_lines block) in
  0 < skipped /\
  true_body_index lines = Some (body_offset metadata + skipped) /\
  exists early : list string,
    length early = skipped /\
    drop (body_offset metadata) lines = (early ++ rest)%list /\
    (convert_to_html sys input_text).2 = sys_markdown sys (text_of (early ++ rest)%list).
Proof.
  intros Hsplit Ho Hc Hb Hsk Hnd lines metadata skipped.
  destruct (scan_opening_block opening closing block rest Ho Hb Hc Hnd) as (_ & Hsize & Htrue).
  assert (Hmeta : metadata = scan_metadata 0 ∅ (opening :: block ++ closing :: rest))
    by (unfold metadata, convert_to_html; simpl; now rewrite Hsplit).
  assert (Hpos : 0 < skipped)
    by (unfold skipped; destruct (skipped_lines block); [congruence | simpl; lia]).
  pose proof (entry_skipped_length block) as Hlen. fold skipped in Hlen.
  assert (Hoff : body_offset metadata = length (entry_lines block) + 2)
    by (unfold body_offset; rewrite Hmeta, Hsize; reflexivity).
  assert (Hdrop : drop (body_offset metadata) lines =
                  ((drop (S (length (entry_lines block))) block ++ [closing]) ++ rest)%list).
  { unfold lines. rewrite Hsplit, Hoff, Nat.add_comm. simpl.
    rewrite drop_app_le by lia. now rewrite <- app_assoc. }
  split; [exact Hpos |]. split.
  - unfold lines. rewrite Hsplit, Hmeta. exact Htrue.
  - exists (drop (S (length (entry_lines block))) block ++ [closing])%list.
    split; [| split].
    + rewrite length_app, length_drop. simpl. lia.
    + exact Hdrop.
    + unfold convert_to_html, body_text, text_of. simpl. f_equal. f_equal. exact Hdrop.
Qed.

Lemma body_offset_skipped_lines_witness :
  true_body_index (Py.split Py.NL (text_of ["---"; "title: First"; "draft"; "---"; "Hello"])) =
  Some (body_offset
          (convert_to_html demo_sys
             (text_of ["---"; "title: First"; "draft"; "---"; "Hello"])).1 + 1).
Proof.
  destruct (body_offset_skipped_lines demo_sys
              (text_of ["---"; "title: First"; "draft"; "---"; "Hello"])
              "---" "---" ["title: First"; "draft"] ["Hello"])
    as (_ & H & _).
  - vm_compute. reflexivity.
  - reflexivity.
  - reflexivity.
  - repeat constructor.
  - vm_compute. discriminate.
  - apply (bool_decide_unpack (NoDup _)). vm_compute. exact I.
  - exact H.
Defined.

(** ** The content renderer *)

(** The template a document is rendered with. *)
Lemma render_get_template {sys : Sys} (metadata : gmap string string) (html : string)
    (s : State sys) (e : Exn) (w : World sys) :
  let name := default "default.html" (metadata !! "template") in
  sys_get_template sys name (world s) = (Raised e, w) ->
  render metadata html s = (Raised e, Build_State sys w (trace s ++ [EvGetTemplate name])).
Proof.
  intros name H. unfold render, bind, env_get_template, call. fold name.
  now rewrite H.
Qed.

(** Metadata with a key [content] of their own, and a template that exists:
    the call of [template.render] raises, and the engine is not reached.  The
    same happens with a key [self]. *)
Lemma render_content_key_counterexample :
  let metadata : gmap string string := {["content" := "mine"]} in
  let selfish : gmap string string := {["self" := "me"]} in
  (render (sys := demo_sys) metadata "<p>body</p>" demo_state).1 =
    Raised (TypeError "got multiple values for keyword argument 'content'") /\
  trace (render (sys := demo_sys) metadata "<p>body</p>" demo_state).2 =
    [EvGetTemplate "default.html"] /\
  (render (sys := demo_sys) selfish "<p>body</p>" demo_state).1 =
    Raised (TypeError "got multiple values for argument 'self'") /\
  trace (render (sys := demo_sys) selfish "<p>body</p>" demo_state).2 =
    [EvGetTemplate "default.html"].
Proof. cbv zeta. repeat split; vm_compute; reflexivity. Qed.

(** C4 (amended). With the template resolved: for metadata without the keys
    ['content'] and ['self'] the engine is called once, with the body under
    ['content'] and every entry of the metadata under its own key, unchanged,
    and nothing else; for metadata with the key ['content'] or the key
    ['self'] the call raises [TypeError] and the engine is not called. *)
Theorem render_binds_content_and_metadata {sys : Sys} (metadata : gmap string string)
    (html : string) (s : State sys) (t : Template sys) (w : World sys) :
  let name := default "default.html" (metadata !! "template") in
  let s' := Build_State sys w (trace s ++ [EvGetTemplate name]) in
  sys_get_template sys name (world s) = (Ok t, w) ->
  (metadata !! "content" = None ->
   metadata !! "self" = None ->
   exists context : gmap string string,
     context !! "content" = Some html /\
     (forall key value, metadata !! key = Some value -> context !! key = Some value) /\
     (forall key, key <> "content" -> context !! key = metadata !! key) /\
     render metadata html s = template_render t context s' /\
     trace (render metadata html s).2 =
       (trace s ++ [EvGetTemplate name; EvRender context])%list) /\
  (is_Some (metadata !! "content") \/ is_Some (metadata !! "self") ->
   exists msg, render metadata html s = (Raised (TypeError msg), s')).
Proof.
  intros name s' Ht. split.
  - intros Hnone Hself. exists (<["content" := html]> metadata).
    assert (Hrun : render metadata html s =
                   template_render t (<["content" := html]> metadata) s').
    { unfold render, bind, env_get_template, call, lift, render_kwargs. fold name.
      rewrite Ht, Hnone, Hself. reflexivity. }
    repeat split.
    + apply lookup_insert_eq.
    + intros key value Hkey. rewrite lookup_insert_ne; [exact Hkey | congruence].
    + intros key Hkey. now rewrite lookup_insert_ne.
    + exact Hrun.
    + rewrite Hrun. unfold template_render, call.
      destruct (sys_render sys t _ (world s')) as [r w']. simpl.
      now rewrite <- app_assoc.
  - intros Hkey.
    unfold render, bind, env_get_template, call, lift, render_kwargs. fold name.
    rewrite Ht.
    destruct (metadata !! "content") as [value|] eqn:Hcontent; [now eexists |].
    destruct Hkey as [[value Hsome] | [value Hsome]]; [discriminate |].
    rewrite Hsome. now eexists.
Qed.

Lemma render_binds_content_and_metadata_witness :
  exists context : gmap string string,
    context !! "content" = Some "<p>Hello</p>" /\
    context !! "title" = Some "First" /\
    trace (render (sys := demo_sys) {["title" := "First"]} "<p>Hello</p>" demo_state).2 =
      [EvGetTemplate "default.html"; EvRender context].
Proof.
  destruct (render_binds_content_and_metadata (sys := demo_sys)
              {["title" := "First"]} "<p>Hello</p>" demo_state
              "default.html" demo_world) as [H _]; [vm_compute; reflexivity |].
  destruct H as (context & Hc & Hm & _ & _ & Htr);
    [vm_compute; reflexivity | vm_compute; reflexivity |].
  exists context. split; [exact Hc |]. split; [| exact Htr].
  apply Hm. reflexivity.
Defined.

(** ** The post index collector *)

Lemma concat_nosep_cons (x : string) (l : list string) :
  String.concat "" (x :: l) = x ++ String.concat "" l.
Proof. destruct l; simpl; [now rewrite str_app_nil_r | reflexivity]. Qed.

(** The loop of [collect_posts] appends the links in the order of the
    listing. *)
Lemma fold_post_links (filenames : list string) (contents : string) :
  fold_left (fun contents filename => contents ++ post_link filename) filenames contents =
  contents ++ String.concat "" (map post_link filenames).
Proof.
  revert contents. induction filenames as [|f filenames IH]; intros contents.
  - simpl. now rewrite str_app_nil_r.
  - cbn [fold_left map]. rewrite IH, concat_nosep_cons. apply str_app_assoc.
Qed.

Lemma split_nonempty (sep : ascii) (s : string) : Py.split sep s <> [].
Proof.
  destruct s as [|c s]; simpl; [discriminate |].
  destruct (Ascii.eqb c sep); [discriminate |].
  destruct (Py.split sep s); discriminate.
Qed.

(** [s.split(sep)[0]] is the text before the first separator. *)
Lemma split_head (sep : ascii) (s : string) :
  let name := hd "" (Py.split sep s) in
  has_char sep name = false /\
  (s = name \/ exists tail, s = name ++ String sep tail).
Proof.
  induction s as [|c s IH]; simpl.
  - split; [reflexivity | now left].
  - destruct (Ascii.eqb_spec c sep) as [->|Hne]; simpl.
    + split; [reflexivity |]. right. now exists s.
    + destruct IH as [Hno Hs].
      pose proof (split_nonempty sep s) as Hnil.
      destruct (Py.split sep s) as [|w ws]; [congruence |]. simpl in *.
      split.
      * apply Ascii.eqb_neq in Hne. now rewrite Hne.
      * destruct Hs as [-> | [tail ->]]; [now left |]. right. now exists tail.
Qed.

(** Replacing one character by another goes character by character. *)
Lemma replace_one_char (c d : ascii) (s : string) :
  Py.replace s (String c "") (String d "") =
  map_chars (fun x => if Ascii.eqb x c then d else x) s.
Proof.
  unfold Py.replace. induction s as [|x s IH]; simpl; [reflexivity |].
  destruct (ascii_dec c x) as [<-|Hne].
  - rewrite Ascii.eqb_refl. destruct s; simpl in *; now rewrite ?IH.
  - assert (E : Ascii.eqb x c = false) by (apply Ascii.eqb_neq; congruence).
    now rewrite E, IH.
Qed.

Lemma cased_not_hyphen (c : ascii) :
  Py.iscased c = true ->
  Ascii.eqb c "-" = false /\ Ascii.eqb (Py.upper c) "-" = false /\
  Ascii.eqb (Py.lower c) "-" = false.
Proof.
  destruct c as [[] [] [] [] [] [] [] []]; vm_compute; intros H;
    try discriminate H; repeat split.
Qed.

Lemma join_cons_char (sep : string) (x : ascii) (w : string) (ws : list string) :
  Py.join sep (String x w :: ws) = String x (Py.join sep (w :: ws)).
Proof. unfold Py.join. destruct ws; reflexivity. Qed.

(** On a name of letters and hyphens, title-casing and then turning hyphens
    into blanks capitalizes the name word by word. *)
Lemma title_words (s : string) (after_cased : bool) :
  all_chars name_char s = true ->
  Py.replace (Py.title_from after_cased s) "-" " " =
  Py.join " " (words_from after_cased (Py.split "-" s)).
Proof.
  rewrite (replace_one_char "-" " ").
  revert after_cased. induction s as [|c s IH]; intros after_cased Hall.
  - simpl. now destruct after_cased.
  - simpl in Hall. apply andb_prop in Hall as [Hc Hall].
    pose proof (split_nonempty "-" s) as Hnil.
    unfold name_char in Hc. destruct (Py.iscased c) eqn:Hcased.
    + destruct (cased_not_hyphen c Hcased) as (E1 & E2 & E3).
      cbn [Py.title_from map_chars Py.split]. rewrite Hcased, E1.
      cbn [map_chars]. rewrite (IH true Hall).
      destruct (Py.split "-" s) as [|w ws]; [congruence |].
      cbn [words_from]. unfold lower_all.
      destruct after_cased; cbn [capitalize map_chars]; unfold lower_all;
        rewrite join_cons_char, ?E2, ?E3; reflexivity.
    + simpl in Hc. apply Ascii.eqb_eq in Hc as ->.
      cbn [Py.title_from map_chars Py.split].
      change (Py.iscased "-") with false. change (Ascii.eqb "-" "-") with true.
      cbn [map_chars]. change (Ascii.eqb "-" "-") with true. cbv iota.
      rewrite (IH false Hall).
      destruct (Py.split "-" s) as [|w ws]; [congruence |].
      cbn [words_from map]. now destruct after_cased.
Qed.

(** Title-casing and then turning hyphens into blanks is the rule of
    [link_text_from]: the loop of [title] remembers whether the character
    before was a letter. *)
Lemma title_link_text (prev : option ascii) (s : string) :
  Py.replace (Py.title_from (after_letter prev) s) "-" " " = link_text_from prev s.
Proof.
  rewrite (replace_one_char "-" " ").
  revert prev. induction s as [|c s IH]; intros prev; [reflexivity |].
  specialize (IH (Some c)). cbn [after_letter] in IH.
  cbn [Py.title_from link_text_from]. unfold link_char.
  destruct (Py.iscased c) eqn:Hcased.
  - destruct (cased_not_hyphen c Hcased) as (E1 & E2 & E3).
    cbn [map_chars]. rewrite E1, IH.
    destruct (after_letter prev); now rewrite ?E2, ?E3.
  - cbn [map_chars]. now rewrite IH.
Qed.

(** A post whose name holds a digit: the letter after the digit is upper-cased,
    so the text of the link is not the name with each word capitalized. *)
Lemma collect_posts_links_counterexample :
  (collect_posts demo_config second_post_state).1 =
    Ok "<a href='/html/blog/my-2nd-post.html' class='post-link'>My 2Nd Post</a>" /\
  words_capitalized "my-2nd-post" = "My 2nd Post" /\
  Py.replace (Py.title "my-2nd-post") "-" " " <> words_capitalized "my-2nd-post".
Proof.
  split; [vm_compute; reflexivity |]. split; [reflexivity |].
  vm_compute. discriminate.
Qed.

(** C9 (amended). For the listing [filenames] of the blog source directory,
    with ASCII names, [collect_posts] returns the links of all entries, in the
    order of the listing and with nothing between them.  The link of an entry
    points to ['/html/blog/<name>.html'], where [<name>] is the text of the
    filename before its first dot.  Its text is the name with a blank for
    every hyphen, every letter that follows no letter upper-cased and every
    letter that follows a letter lower-cased; for a name of letters and
    hyphens that is the name with every word capitalized. *)
Theorem collect_posts_links {sys : Sys} (CONFIG : Config) (s : State sys)
    (filenames : list string) (w : World sys) :
  let blog := Py.path_join (INPUT_DIR CONFIG) ["blog"] in
  sys_listdir sys blog (world s) = (Ok filenames, w) ->
  Forall (fun filename => all_chars is_ascii filename = true) filenames ->
  collect_posts CONFIG s =
    (Ok (String.concat "" (map post_link filenames)),
     Build_State sys w (trace s ++ [EvListdir blog])) /\
  (forall filename,
     all_chars is_ascii filename = true ->
     exists name,
       has_char "." name = false /\
       (filename = name \/ exists tail, filename = name ++ "." ++ tail) /\
       post_link filename =
         "<a href='/html/blog/" ++ name ++ ".html' class='post-link'>"
         ++ link_text_from None name ++ "</a>" /\
       (all_chars name_char name = true ->
        link_text_from None name = words_capitalized name)) /\
  post_link "my-first-post.md" =
    "<a href='/html/blog/my-first-post.html' class='post-link'>My First Post</a>" /\
  post_link "my-2nd-post.md" =
    "<a href='/html/blog/my-2nd-post.html' class='post-link'>My 2Nd Post</a>" /\
  post_link "myPost.tar.md" =
    "<a href='/html/blog/myPost.html' class='post-link'>Mypost</a>".
Proof.
  intros blog Hls Hascii. split; [| split].
  - unfold collect_posts, bind, os_listdir, call, ret. fold blog. rewrite Hls.
    now rewrite fold_post_links.
  - intros filename _. exists (hd "" (Py.split "." filename)).
    destruct (split_head "." filename) as [Hno Hs].
    split; [exact Hno |]. split; [exact Hs |].
    rewrite <- (title_link_text None). cbn [after_letter]. split.
    + reflexivity.
    + intros Hall. unfold words_capitalized.
      rewrite title_words by exact Hall.
      unfold words_from. now destruct (Py.split "-" _).
  - repeat split.
Qed.

Lemma collect_posts_links_witness :
  (collect_posts demo_config demo_state).1 =
  Ok "<a href='/html/blog/my-first-post.html' class='post-link'>My First Post</a>".
Proof.
  destruct (collect_posts_links demo_config demo_state ["my-first-post.md"] demo_world)
    as [H _]; [vm_compute; reflexivity | repeat constructor |].
  rewrite H. reflexivity.
Defined.

(** ** Output file names *)

Lemma prefix_cons (x y : ascii) (p s : string) :
  String.prefix (String x p) (String y s) =
  if Ascii.eqb x y then String.prefix p s else false.
Proof.
  cbn [String.prefix]. destruct (ascii_dec x y) as [->|Hne].
  - now rewrite Ascii.eqb_refl.
  - apply Ascii.eqb_neq in Hne. now rewrite Hne.
Qed.

Lemma prefix_nil (s : string) : String.prefix "" s = true.
Proof. now destruct s. Qed.

Lemma prefix_md_straddle (c : ascii) (a b : string) :
  String.prefix ".md" (String c a ++ ".md" ++ b) = true ->
  exists a', a = "md" ++ a' /\ c = "."%char.
Proof.
  change (String c a ++ ".md" ++ b) with (String c (a ++ ".md" ++ b)).
  rewrite prefix_cons.
  destruct (Ascii.eqb_spec "." c) as [<-|]; [| discriminate].
  destruct a as [|x a].
  - discriminate.
  - change (String x a ++ ".md" ++ b) with (String x (a ++ ".md" ++ b)).
    rewrite prefix_cons.
    destruct (Ascii.eqb_spec "m" x) as [<-|]; [| discriminate].
    destruct a as [|y a].
    + discriminate.
    + change (String y a ++ ".md" ++ b) with (String y (a ++ ".md" ++ b)).
      rewrite prefix_cons.
      destruct (Ascii.eqb_spec "d" y) as [<-|]; [| discriminate].
      intros _. now exists a.
Qed.

Lemma prefix_app (p a b : string) :
  String.prefix p a = true -> String.prefix p (a ++ b) = true.
Proof.
  revert a; induction p as [|x p IH]; intros a H.
  - apply prefix_nil.
  - destruct a as [|y a]; [discriminate |].
    change (String y a ++ b) with (String y (a ++ b)).
    rewrite prefix_cons in *.
    destruct (Ascii.eqb x y); [now apply IH | discriminate].
Qed.

Lemma replace_scan_md_hit (b : string) :
  Py.replace_scan ".md" ".html" 0 (".md" ++ b) =
  ".html" ++ Py.replace_scan ".md" ".html" 0 b.
Proof.
  change (".md" ++ b) with (String "." (String "m" (String "d" b))).
  cbn [Py.replace_scan]. rewrite !prefix_cons, !Ascii.eqb_refl, prefix_nil.
  reflexivity.
Qed.

(** The scan over [a ++ ".md" ++ b] treats [a] as it does alone, then
    replaces the occurrence, then goes on with [b]. *)
Lemma replace_scan_md_app (a b : string) (skip : nat) :
  skip <= String.length a ->
  Py.replace_scan ".md" ".html" skip (a ++ ".md" ++ b) =
  Py.replace_scan ".md" ".html" skip a ++ ".html" ++ Py.replace_scan ".md" ".html" 0 b.
Proof.
  revert skip. induction a as [|c a IH]; intros skip Hskip.
  - simpl in Hskip. assert (skip = 0) as -> by lia. apply replace_scan_md_hit.
  - change (String c a ++ ".md" ++ b) with (String c (a ++ ".md" ++ b)).
    destruct skip as [|k]; cbn [Py.replace_scan].
    + destruct (String.prefix ".md" (String c (a ++ ".md" ++ b))) eqn:Hp.
      * destruct (prefix_md_straddle c a b Hp) as (a' & -> & ->).
        change (String.prefix ".md" (String "." ("md" ++ a')))
          with (String.prefix ".md" (".md" ++ a')).
        rewrite (prefix_app ".md" ".md" a' eq_refl).
        change (String.length ".md" - 1) with 2.
        rewrite IH by (simpl; lia). now rewrite !str_app_assoc.
      * destruct (String.prefix ".md" (String c a)) eqn:Hq.
        { apply (prefix_app _ _ (".md" ++ b)) in Hq.
          change (String c a ++ ".md" ++ b) with (String c (a ++ ".md" ++ b)) in Hq.
          congruence. }
        rewrite IH by lia. reflexivity.
    + simpl in Hskip. apply IH. lia.
Qed.

(** Every occurrence of ['.md'] is replaced, wherever it stands. *)
Lemma replace_md_app (a b : string) :
  Py.replace (a ++ ".md" ++ b) ".md" ".html" =
  Py.replace a ".md" ".html" ++ ".html" ++ Py.replace b ".md" ".html".
Proof. unfold Py.replace. apply replace_scan_md_app. lia. Qed.

(** ** One document *)

Section Conversion.

Context {sys : Sys}.
Variable CONFIG : Config.

(** An entry that does not end in ['.md'] is passed over. *)
Lemma convert_file_skip (input_dir post_list filename : string) (s : State sys) :
  Py.endswith filename ".md" = false ->
  convert_file CONFIG input_dir post_list filename s = (Ok tt, s).
Proof. intros H. unfold convert_file. now rewrite H. Qed.

(** A document whose template is not found: the exception of
    [env.get_template] leaves [convert_file] after the document was read and
    before anything is rendered or written. *)
Lemma convert_file_template_missing (input_dir post_list filename : string) (s : State sys)
    (text : string) (w1 w2 : World sys) (e : Exn) :
  let path := Py.path_join input_dir [filename] in
  let name := default "default.html" ((convert_to_html sys text).1 !! "template") in
  Py.endswith filename ".md" = true ->
  sys_read_file sys path (world s) = (Ok text, w1) ->
  sys_get_template sys name w1 = (Raised e, w2) ->
  convert_file CONFIG input_dir post_list filename s =
    (Raised e, Build_State sys w2 (trace s ++ [EvReadFile path; EvGetTemplate name])).
Proof.
  intros path name Hmd Hread Htpl. unfold convert_file. rewrite Hmd. fold path.
  unfold bind at 1. unfold read_file, call. rewrite Hread.
  subst name. destruct (convert_to_html sys text) as [metadata html]. simpl in *.
  unfold bind.
  rewrite (render_get_template metadata html
             (Build_State sys w1 (trace s ++ [EvReadFile path])) e w2 Htpl).
  simpl. now rewrite <- app_assoc.
Qed.

(** A document that is read and rendered: the page is written under the
    routed directory, with every ['.md'] of the file name replaced. *)
Lemma convert_file_written (input_dir post_list filename : string) (s : State sys)
    (text output_text : string) (t : Template sys) (w1 w2 w3 : World sys) :
  let path := Py.path_join input_dir [filename] in
  let metadata := (convert_to_html sys text).1 in
  let html := (convert_to_html sys text).2 in
  let name := default "default.html" (metadata !! "template") in
  let context := <["content" := html]> metadata in
  Py.endswith filename ".md" = true ->
  sys_read_file sys path (world s) = (Ok text, w1) ->
  sys_get_template sys name w1 = (Ok t, w2) ->
  metadata !! "content" = None ->
  metadata !! "self" = None ->
  sys_render sys t context w2 = (Ok output_text, w3) ->
  convert_file CONFIG input_dir post_list filename s =
    write_file
      (Py.path_join (determine_html_subdir CONFIG metadata)
                    [Py.replace filename ".md" ".html"])
      (inject_html CONFIG output_text post_list)
      (Build_State sys w3
         (trace s ++ [EvReadFile path; EvGetTemplate name; EvRender context])).
Proof.
  intros path metadata html name context Hmd Hread Htpl Hnone Hself Hrender.
  unfold convert_file. rewrite Hmd. fold path.
  unfold bind at 1. unfold read_file, call. rewrite Hread.
  subst context name metadata html.
  destruct (convert_to_html sys text) as [metadata html]. simpl in *.
  unfold bind, render, bind, env_get_template, call, lift, render_kwargs,
    template_render, call. simpl.
  rewrite Htpl, Hnone, Hself. simpl. rewrite Hrender. simpl.
  now rewrite <- !app_assoc.
Qed.

End Conversion.

(** C10. A converted file is written under the name obtained by replacing
    every occurrence of ['.md'] in the file name by ['.html'], wherever the
    occurrence stands. *)
Theorem convert_file_replaces_every_md {sys : Sys} (CONFIG : Config)
    (input_dir post_list filename : string) (s : State sys)
    (text output_text : string) (t : Template sys) (w1 w2 w3 w4 : World sys) (r : Res unit) :
  let path := Py.path_join input_dir [filename] in
  let metadata := (convert_to_html sys text).1 in
  let context := <["content" := (convert_to_html sys text).2]> metadata in
  let written :=
    Py.path_join (determine_html_subdir CONFIG metadata) [Py.replace filename ".md" ".html"] in
  Py.endswith filename ".md" = true ->
  sys_read_file sys path (world s) = (Ok text, w1) ->
  sys_get_template sys (default "default.html" (metadata !! "template")) w1 = (Ok t, w2) ->
  metadata !! "content" = None ->
  metadata !! "self" = None ->
  sys_render sys t context w2 = (Ok output_text, w3) ->
  sys_write_file sys written (inject_html CONFIG output_text post_list) w3 = (r, w4) ->
  (convert_file CONFIG input_dir post_list filename s).1 = r /\
  last (trace (convert_file CONFIG input_dir post_list filename s).2) =
    Some (EvWriteFile written (inject_html CONFIG output_text post_list)) /\
  (forall a b : string,
     Py.replace (a ++ ".md" ++ b) ".md" ".html" =
     Py.replace a ".md" ".html" ++ ".html" ++ Py.replace b ".md" ".html") /\
  Py.replace "a.md.md" ".md" ".html" = "a.html.html" /\
  Py.replace "notes.mdx.md" ".md" ".html" = "notes.htmlx.html".
Proof.
  intros path metadata context written Hmd Hread Htpl Hnone Hself Hrender Hwrite.
  rewrite (convert_file_written CONFIG input_dir post_list filename s text output_text
             t w1 w2 w3 Hmd Hread Htpl Hnone Hself Hrender).
  fold metadata written. unfold write_file, call. simpl. rewrite Hwrite. simpl.
  repeat split.
  - apply last_snoc.
  - apply replace_md_app.
Qed.

Lemma convert_file_replaces_every_md_witness :
  last (trace (convert_file demo_config "content/blog" "" "my-first-post.md" demo_state).2) =
  Some (EvWriteFile "dist/html/blog/my-first-post.html"
          ("<html><body>Hello" ++ dev_script ++ "</body></html>")).
Proof.
  destruct (convert_file_replaces_every_md demo_config "content/blog" "" "my-first-post.md"
              demo_state
              (text_of ["---"; "title: First"; "template: post.html"; "---"; "Hello"])
              "<html><body>Hello</body></html>" "post.html"
              demo_world demo_world demo_world
              (demo_write_file "dist/html/blog/my-first-post.html"
                 ("<html><body>Hello" ++ dev_script ++ "</body></html>") demo_world).2
              (Ok tt))
    as (_ & H & _); [vm_compute; reflexivity .. | exact H].
Defined.

(** ** Traces *)

Create HintDb trace_db.

Lemma trace_grows_ret {sys : Sys} {A : Type} (a : A) : trace_grows (ret (sys := sys) a).
Proof. intros s. exists []. simpl. now rewrite app_nil_r. Qed.

Lemma trace_grows_lift {sys : Sys} {A : Type} (r : Res A) : trace_grows (lift (sys := sys) r).
Proof. intros s. exists []. simpl. now rewrite app_nil_r. Qed.

Lemma trace_grows_call {sys : Sys} {A : Type} (ev : Event)
    (f : World sys -> Res A * World sys) :
  trace_grows (call ev f).
Proof. intros s. exists [ev]. unfold call. now destruct (f (world s)). Qed.

Lemma trace_grows_call_total {sys : Sys} {A : Type} (ev : Event)
    (f : World sys -> A * World sys) :
  trace_grows (call_total ev f).
Proof. intros s. exists [ev]. unfold call_total. now destruct (f (world s)). Qed.

Lemma trace_grows_bind {sys : Sys} {A B : Type} (m : M sys A) (k : A -> M sys B) :
  trace_grows m -> (forall a, trace_grows (k a)) -> trace_grows (bind m k).
Proof.
  intros Hm Hk s. unfold bind. destruct (Hm s) as [l1 H1].
  destruct (m s) as [[a|e] s']; simpl in H1.
  - destruct (Hk a s') as [l2 H2]. exists (l1 ++ l2)%list.
    now rewrite H2, H1, app_assoc.
  - now exists l1.
Qed.

Lemma trace_grows_try {sys : Sys} {A : Type} (m : M sys A) (h : string -> M sys A) :
  trace_grows m -> (forall msg, trace_grows (h msg)) -> trace_grows (try_compile_error m h).
Proof.
  intros Hm Hh s. unfold try_compile_error. destruct (Hm s) as [l1 H1].
  destruct (m s) as [[a|e] s']; simpl in H1; [now exists l1 |].
  destruct e; try (now exists l1).
  destruct (Hh msg s') as [l2 H2]. exists (l1 ++ l2)%list.
  now rewrite H2, H1, app_assoc.
Qed.

Lemma trace_grows_for_each {sys : Sys} {A : Type} (l : list A) (body : A -> M sys unit) :
  (forall x, trace_grows (body x)) -> trace_grows (for_each l body).
Proof.
  intros Hbody. induction l as [|x l IH]; simpl.
  - apply trace_grows_ret.
  - apply trace_grows_bind; [apply Hbody | intros _; exact IH].
Qed.

#[local] Hint Resolve trace_grows_ret trace_grows_lift trace_grows_call
  trace_grows_call_total trace_grows_bind trace_grows_try trace_grows_for_each : trace_db.

Ltac trace_grows_tac :=
  repeat first
    [ apply trace_grows_bind; [| intros ?]
    | apply trace_grows_for_each; intros ?
    | apply trace_grows_try; [| intros ?]
    | apply trace_grows_ret
    | apply trace_grows_lift
    | apply trace_grows_call
    | apply trace_grows_call_total ].

Section Traces.

Context {sys : Sys}.
Variable CONFIG : Config.

Lemma trace_grows_render (metadata : gmap string string) (html : string) :
  trace_grows (render (sys := sys) metadata html).
Proof. unfold render, env_get_template, template_render. trace_grows_tac. Qed.

Lemma trace_grows_convert_file (input_dir post_list filename : string) :
  trace_grows (convert_file (sys := sys) CONFIG input_dir post_list filename).
Proof.
  unfold convert_file. destruct (Py.endswith filename ".md"); [| apply trace_grows_ret].
  apply trace_grows_bind; [apply trace_grows_call |]. intros markdown_input.
  destruct (convert_to_html sys markdown_input) as [metadata html].
  apply trace_grows_bind; [apply trace_grows_render |]. intros output_text.
  apply trace_grows_call.
Qed.

Lemma trace_grows_run_stage (st : Stage) (posts : string) :
  trace_grows (run_stage (sys := sys) CONFIG st posts).
Proof.
  destruct st; unfold run_stage, reset_dist, collect_posts, convert_markdown,
    copy_static_files, compile_sass, shutil_rmtree, os_makedirs, os_mkdir, os_listdir,
    shutil_copyfile, sass_compile, print;
    trace_grows_tac; apply trace_grows_convert_file.
Qed.

Lemma trace_grows_run_stages (stages : list Stage) (posts : string) :
  trace_grows (run_stages (sys := sys) CONFIG stages posts).
Proof.
  revert posts. induction stages as [|st stages IH]; intros posts; simpl.
  - apply trace_grows_ret.
  - apply trace_grows_bind; [apply trace_grows_run_stage | intros p; apply IH].
Qed.

End Traces.

(** ** The loop over a directory and the sequence of stages *)

Section Loops.

Context {sys : Sys}.
Variable CONFIG : Config.

(** A loop whose first entries pass and whose next entry raises stops
    there: the entries after it are not visited. *)
Lemma for_each_abort {A : Type} (body : A -> M sys unit) (before after : list A) (x : A)
    (s s1 s2 : State sys) (e : Exn) :
  for_each before body s = (Ok tt, s1) ->
  body x s1 = (Raised e, s2) ->
  for_each (before ++ x :: after) body s = (Raised e, s2).
Proof.
  revert s. induction before as [|y before IH]; intros s Hbefore Hx.
  - simpl in Hbefore. injection Hbefore as <-. simpl. unfold bind. now rewrite Hx.
  - simpl in *. unfold bind in *.
    destruct (body y s) as [[[]|e'] s']; [| discriminate].
    now apply IH.
Qed.

(** Stages that have run, then a stage that raises: the remaining stages are
    not started. *)
Lemma run_stages_abort (before after : list Stage) (st : Stage) (posts posts' : string)
    (s s1 s2 : State sys) (e : Exn) :
  run_stages CONFIG before posts s = (Ok posts', s1) ->
  run_stage CONFIG st posts' s1 = (Raised e, s2) ->
  run_stages CONFIG (before ++ st :: after) posts s = (Raised e, s2).
Proof.
  revert posts s. induction before as [|st0 before IH]; intros posts s Hbefore Hst.
  - simpl in Hbefore. unfold ret in Hbefore. injection Hbefore as <- <-.
    simpl. unfold bind. now rewrite Hst.
  - simpl in *. unfold bind in *.
    destruct (run_stage CONFIG st0 posts s) as [[p|e'] s']; [| discriminate].
    now apply IH with (posts := p).
Qed.

(** [build_site] is the staged build in the order of its calls. *)
Lemma build_site_staged (s : State sys) :
  build_site CONFIG s = staged_build CONFIG build_order s.
Proof.
  unfold build_site, staged_build, build_order, run_stages, run_stage, bind, ret.
  destruct (perf_counter s) as [[build_start|?] s0]; [| reflexivity].
  destruct (collect_posts CONFIG s0) as [[posts|?] s1]; [| reflexivity].
  destruct (reset_dist CONFIG s1) as [[?|?] s2]; [| reflexivity].
  destruct (convert_markdown CONFIG (INPUT_DIR CONFIG) posts s2) as [[?|?] s3]; [| reflexivity].
  destruct (convert_markdown CONFIG (Py.path_join (INPUT_DIR CONFIG) ["blog"]) posts s3)
    as [[?|?] s4]; [| reflexivity].
  destruct (copy_static_files CONFIG "js" s4) as [[?|?] s5]; [| reflexivity].
  destruct (copy_static_files CONFIG "img" s5) as [[?|?] s6]; [| reflexivity].
  destruct (compile_sass CONFIG s6) as [[?|?] s7]; reflexivity.
Qed.

(** The conversion of a directory stops at the first document whose
    template is not found. *)
Lemma convert_markdown_template_missing (input_dir post_list : string)
    (before after : list string) (filename text : string) (s0 s2 : State sys)
    (w1 w3 w4 : World sys) (e : Exn) :
  let path := Py.path_join input_dir [filename] in
  let name := default "default.html" ((convert_to_html sys text).1 !! "template") in
  sys_listdir sys input_dir (world s0) = (Ok (before ++ filename :: after)%list, w1) ->
  for_each before (convert_file CONFIG input_dir post_list)
    (Build_State sys w1 (trace s0 ++ [EvListdir input_dir])) = (Ok tt, s2) ->
  Py.endswith filename ".md" = true ->
  sys_read_file sys path (world s2) = (Ok text, w3) ->
  sys_get_template sys name w3 = (Raised e, w4) ->
  convert_markdown CONFIG input_dir post_list s0 =
    (Raised e, Build_State sys w4 (trace s2 ++ [EvReadFile path; EvGetTemplate name])).
Proof.
  intros path name Hls Hbefore Hmd Hread Htpl.
  unfold convert_markdown, bind, os_listdir, call. rewrite Hls.
  eapply for_each_abort; [exact Hbefore |].
  now apply convert_file_template_missing with (w1 := w3).
Qed.

End Loops.

Lemma perf_counter_ok {sys : Sys} (s : State sys) :
  exists t, perf_counter s = (Ok t, (perf_counter s).2).
Proof.
  unfold perf_counter, call_total. destruct (sys_perf_counter sys (world s)) as [t w].
  now exists t.
Qed.

(** C8. A document whose template cannot be resolved: [render] raises the
    error of [env.get_template]; the loop of [convert_markdown] ends with
    that error, in the state right after the failed lookup; and so does
    [build_site], whichever of the two source directories the document is in.
    The documents after it are not read, and neither it nor they are
    written. *)
Theorem missing_template_aborts_build {sys : Sys} (CONFIG : Config) (s : State sys)
    (stages_before stages_after : list Stage) (st : Stage) (input_dir posts : string)
    (before after : list string) (filename text : string) (s0 s2 : State sys)
    (w1 w3 w4 : World sys) :
  let path := Py.path_join input_dir [filename] in
  let metadata := (convert_to_html sys text).1 in
  let name := default "default.html" (metadata !! "template") in
  let failed := Build_State sys w4 (trace s2 ++ [EvReadFile path; EvGetTemplate name]) in
  build_order = (stages_before ++ st :: stages_after)%list ->
  (st = ConvertMainDir /\ input_dir = INPUT_DIR CONFIG) \/
  (st = ConvertBlogDir /\ input_dir = Py.path_join (INPUT_DIR CONFIG) ["blog"]) ->
  run_stages CONFIG stages_before "" (perf_counter s).2 = (Ok posts, s0) ->
  sys_listdir sys input_dir (world s0) = (Ok (before ++ filename :: after)%list, w1) ->
  for_each before (convert_file CONFIG input_dir posts)
    (Build_State sys w1 (trace s0 ++ [EvListdir input_dir])) = (Ok tt, s2) ->
  Py.endswith filename ".md" = true ->
  sys_read_file sys path (world s2) = (Ok text, w3) ->
  sys_get_template sys name w3 = (Raised (TemplateNotFound name), w4) ->
  render metadata (convert_to_html sys text).2
    (Build_State sys w3 (trace s2 ++ [EvReadFile path])) =
    (Raised (TemplateNotFound name), failed) /\
  convert_markdown CONFIG input_dir posts s0 = (Raised (TemplateNotFound name), failed) /\
  build_site CONFIG s = (Raised (TemplateNotFound name), failed).
Proof.
  intros path metadata name failed Horder Hst Hrun Hls Hbefore Hmd Hread Htpl.
  assert (Hconv : convert_markdown CONFIG input_dir posts s0 =
                  (Raised (TemplateNotFound name), failed)).
  { exact (convert_markdown_template_missing CONFIG input_dir posts before after filename
             text s0 s2 w1 w3 w4 _ Hls Hbefore Hmd Hread Htpl). }
  split; [| split; [exact Hconv |]].
  - rewrite (render_get_template metadata _
               (Build_State sys w3 (trace s2 ++ [EvReadFile path])) _ w4 Htpl).
    unfold failed. simpl. now rewrite <- app_assoc.
  - assert (Hstage : run_stage CONFIG st posts s0 = (Raised (TemplateNotFound name), failed)).
    { destruct Hst as [[-> ->] | [-> ->]]; unfold run_stage, bind; now rewrite Hconv. }
    rewrite build_site_staged. unfold staged_build. unfold bind at 1.
    destruct (perf_counter_ok s) as [t Hp]. rewrite Hp.
    unfold bind at 1. rewrite Horder.
    now rewrite (run_stages_abort CONFIG stages_before stages_after st "" posts
                   _ s0 failed _ Hrun Hstage).
Qed.

Lemma missing_template_aborts_build_witness :
  (build_site demo_config broken_state).1 = Raised (TemplateNotFound "fancy.html") /\
  last (trace (build_site demo_config broken_state).2) = Some (EvGetTemplate "fancy.html").
Proof.
  pose (s0 := (run_stages demo_config [CollectPostIndex; ResetOutputTree] ""
                 (perf_counter broken_state).2).2).
  pose (s2 := (for_each ["index.md"] (convert_file demo_config "content" (post_link "my-first-post.md"))
                 (Build_State demo_sys (world s0) (trace s0 ++ [EvListdir "content"]))).2).
  destruct (missing_template_aborts_build demo_config broken_state
              [CollectPostIndex; ResetOutputTree]
              [ConvertBlogDir; CopyStaticJS; CopyStaticImg; CompileStylesheets]
              ConvertMainDir "content" (post_link "my-first-post.md")
              ["index.md"] ["contact.md"] "about.md"
              (text_of ["---"; "template: fancy.html"; "---"; "About"])
              s0 s2 (world s0) (world s2) (world s2))
    as (_ & _ & H).
  - reflexivity.
  - left. split; reflexivity.
  - vm_compute. reflexivity.
  - vm_compute. reflexivity.
  - vm_compute. reflexivity.
  - reflexivity.
  - vm_compute. reflexivity.
  - vm_compute. reflexivity.
  - rewrite H. split; [reflexivity |]. vm_compute. reflexivity.
Defined.

(** ** The build orchestrator *)

Lemma bind_ok {sys : Sys} {A B : Type} (m : M sys A) (k : A -> M sys B)
    (s s' : State sys) (a : A) :
  m s = (Ok a, s') -> bind m k s = k a s'.
Proof. intros H. unfold bind. now rewrite H. Qed.

Lemma bind_raised {sys : Sys} {A B : Type} (m : M sys A) (k : A -> M sys B)
    (s s' : State sys) (e : Exn) :
  m s = (Raised e, s') -> bind m k s = (Raised e, s').
Proof. intros H. unfold bind. now rewrite H. Qed.

Section Orchestrator.

Context {sys : Sys}.
Variable CONFIG : Config.

Let blog : string := Py.path_join (INPUT_DIR CONFIG) ["blog"].

(** [collect_posts] makes one call: the listing of the blog directory. *)
Lemma collect_posts_trace (s : State sys) :
  trace (collect_posts CONFIG s).2 = (trace s ++ [EvListdir blog])%list.
Proof.
  unfold collect_posts, bind, os_listdir, call, ret. fold blog.
  now destruct (sys_listdir sys blog (world s)) as [[l|e] w].
Qed.

(** [reset_dist] starts by removing the output tree and creating it anew. *)
Lemma reset_dist_trace (s : State sys) :
  exists more,
    trace (reset_dist CONFIG s).2 =
    (trace s ++ EvRmtree (OUTPUT_DIR CONFIG) :: EvMakedirs (OUTPUT_DIR CONFIG) :: more)%list.
Proof.
  unfold reset_dist, bind, shutil_rmtree, call_total, os_makedirs, call. simpl.
  destruct (sys_makedirs sys (OUTPUT_DIR CONFIG) _) as [[[]|e] w]; simpl.
  - destruct (sys_makedirs sys _ w) as [r w']. simpl.
    eexists [_]. now rewrite <- !app_assoc.
  - exists []. now rewrite <- !app_assoc.
Qed.

(** The stages in the order of the code: the listing of the blog directory
    comes first; the run either ends there, with an exception, or goes on
    with the reset of the output tree. *)
Lemma run_build_order_trace (s : State sys) :
  exists later,
    trace (run_stages CONFIG build_order "" s).2 = (trace s ++ EvListdir blog :: later)%list /\
    ((exists e, (run_stages CONFIG build_order "" s).1 = Raised e) /\ later = [] \/
     exists later',
       later = EvRmtree (OUTPUT_DIR CONFIG) :: EvMakedirs (OUTPUT_DIR CONFIG) :: later').
Proof.
  unfold build_order.
  remember [ConvertMainDir; ConvertBlogDir; CopyStaticJS; CopyStaticImg; CompileStylesheets]
    as rest eqn:Hrest.
  cbn [run_stages run_stage].
  pose proof (collect_posts_trace s) as Hc.
  destruct (collect_posts CONFIG s) as [[posts|e] s1] eqn:Ec; simpl in Hc.
  - rewrite (bind_ok _ _ _ _ _ Ec).
    destruct (reset_dist_trace s1) as [more Hr].
    destruct (reset_dist CONFIG s1) as [[[]|e] s2] eqn:Er; simpl in Hr.
    + assert (E2 : bind (reset_dist CONFIG) (fun _ => ret posts) s1 = (Ok posts, s2))
        by (now rewrite (bind_ok _ _ _ _ _ Er)).
      rewrite (bind_ok _ _ _ _ _ E2).
      destruct (trace_grows_run_stages CONFIG rest posts s2) as [events He].
      exists (EvRmtree (OUTPUT_DIR CONFIG) :: EvMakedirs (OUTPUT_DIR CONFIG) :: more ++ events)%list.
      split; [| right; now eexists].
      rewrite He, Hr, Hc.
      rewrite <- !app_assoc. reflexivity.
    + assert (E2 : bind (reset_dist CONFIG) (fun _ => ret posts) s1 = (Raised e, s2))
        by (now rewrite (bind_raised _ _ _ _ _ Er)).
      rewrite (bind_raised _ _ _ _ _ E2). simpl.
      exists (EvRmtree (OUTPUT_DIR CONFIG) :: EvMakedirs (OUTPUT_DIR CONFIG) :: more).
      split; [| right; now eexists].
      rewrite Hr, Hc. rewrite <- !app_assoc. reflexivity.
  - rewrite (bind_raised _ _ _ _ _ Ec). simpl.
    exists []. split; [exact Hc | left; split; [now exists e | reflexivity]].
Qed.

End Orchestrator.

Lemma perf_counter_trace {sys : Sys} (s : State sys) :
  trace (perf_counter s).2 = (trace s ++ [EvPerfCounter])%list.
Proof.
  unfold perf_counter, call_total. now destruct (sys_perf_counter sys (world s)).
Qed.

(** On the small site: the first call of the build after the clock is the
    listing of the blog directory, and the output tree is removed only then;
    a build in the order of section 4.6 would remove the tree first.  On the
    site without a blog directory the difference shows in the files: the
    build raises before it has reset anything, and the page of the earlier
    build is still there. *)
Lemma build_site_stage_order_counterexample :
  firstn 3 (trace (build_site demo_config demo_state).2) =
    [EvPerfCounter; EvListdir "content/blog"; EvRmtree "dist"] /\
  firstn 3 (trace (staged_build demo_config spec_order demo_state).2) =
    [EvPerfCounter; EvRmtree "dist"; EvMakedirs "dist"] /\
  build_site demo_config demo_state <> staged_build demo_config spec_order demo_state /\
  (build_site demo_config stale_state).1 = Raised (FileNotFoundError "content/blog") /\
  demo_files (world (build_site demo_config stale_state).2) !! "dist/old.html" =
    Some "<html></html>" /\
  demo_files (world (staged_build demo_config spec_order stale_state).2) !! "dist/old.html" =
    None.
Proof.
  split; [vm_compute; reflexivity |].
  split; [vm_compute; reflexivity |].
  split; [| repeat split; vm_compute; reflexivity].
  intros H.
  apply (f_equal (fun r : Res unit * State demo_sys => firstn 3 (trace r.2))) in H.
  vm_compute in H. discriminate H.
Qed.

(** C2 (amended). Every build runs the stages in the order CollectPostIndex,
    ResetOutputTree, ConvertMainDir, ConvertBlogDir, CopyStaticJS,
    CopyStaticImg, CompileStylesheets, each stage after the previous one has
    returned.  In particular the blog directory is listed, for the post
    index, before the output tree is reset: after the clock reading the
    listing is the first call, and either the build ends there or the removal
    and re-creation of the output root follow. *)
Theorem build_site_stage_order {sys : Sys} (CONFIG : Config) (s : State sys) :
  build_site CONFIG s = staged_build CONFIG build_order s /\
  exists later,
    trace (build_site CONFIG s).2 =
      (trace s ++ EvPerfCounter :: EvListdir (Py.path_join (INPUT_DIR CONFIG) ["blog"]) :: later)%list /\
    (later = [] \/
     exists later',
       later = EvRmtree (OUTPUT_DIR CONFIG) :: EvMakedirs (OUTPUT_DIR CONFIG) :: later').
Proof.
  split; [apply build_site_staged |].
  rewrite build_site_staged. unfold staged_build.
  destruct (perf_counter_ok s) as [t Hp]. rewrite (bind_ok _ _ _ _ _ Hp).
  pose proof (perf_counter_trace s) as Hs0.
  destruct (run_build_order_trace CONFIG (perf_counter s).2) as (later & Ht & Hcase).
  destruct (run_stages CONFIG build_order "" (perf_counter s).2) as [[posts|e] s1] eqn:Er;
    simpl in Ht, Hcase.
  - rewrite (bind_ok _ _ _ _ _ Er).
    destruct Hcase as [[[e He] _] | [later' ->]]; [discriminate |].
    assert (Hfin : trace_grows
              (bind (perf_counter (sys := sys)) (fun build_finish =>
                 print ("Finished site build in " ++ sys_elapsed sys t build_finish
                        ++ " second(s)"))))
      by (unfold perf_counter, print; trace_grows_tac).
    destruct (Hfin s1) as [events He]. rewrite He, Ht, Hs0.
    eexists. split; [| right; eexists; reflexivity].
    rewrite <- !app_assoc. reflexivity.
  - rewrite (bind_raised _ _ _ _ _ Er). simpl. rewrite Ht, Hs0.
    exists later. split; [now rewrite <- app_assoc |].
    destruct Hcase as [[_ ->] | [later' ->]]; [now left | right; now eexists].
Qed.

(** ** The embedding at work *)

Example split_lines :
  Py.split Py.NL (text_of ["a"; "b"; ""]) = ["a"; "b"; ""].
Proof. reflexivity. Qed.

Example split1_first_colon : Py.split1 ":" "title: a: b" = ["title"; " a: b"].
Proof. reflexivity. Qed.

Example split1_no_colon : Py.split1 ":" "no colon here" = ["no colon here"].
Proof. reflexivity. Qed.

Example strip_both_ends : Py.strip "  a b  " = "a b".
Proof. reflexivity. Qed.

Example title_keeps_hyphens : Py.title "my-first-post" = "My-First-Post".
Proof. reflexivity. Qed.

Example title_lowers_the_rest : Py.title "myPost 2nd" = "Mypost 2Nd".
Proof. reflexivity. Qed.

Example endswith_md :
  Py.endswith "notes.mdx.md" ".md" = true /\ Py.endswith "notes.mdx" ".md" = false.
Proof. split; reflexivity. Qed.

Example join_paths : Py.path_join "dist" ["html"; "blog"] = "dist/html/blog".
Proof. reflexivity. Qed.

Example add_html_after :
  add_html {| html := "<ul id='posts'></ul>"; anchor := "<ul id='posts'>";
              element := "<li>x</li>"; prepend := false |} =
  "<ul id='posts'><li>x</li></ul>".
Proof. reflexivity. Qed.

(** The whole build of the small site succeeds; the home page, which has no
    front matter, is written below [html/], without its first two lines. *)
Example demo_build :
  (build_site demo_config demo_state).1 = Ok tt /\
  demo_files (world (build_site demo_config demo_state).2) !! "dist/html/index.html" =
    Some ("<html><body>Welcome" ++ dev_script ++ "</body></html>") /\
  demo_files (world (build_site demo_config demo_state).2) !! "dist/index.html" = None /\
  demo_files (world (build_site demo_config demo_state).2) !! "dist/html/blog/my-first-post.html" =
    Some ("<html><body>Hello" ++ dev_script ++ "</body></html>").
Proof. repeat split; vm_compute; reflexivity. Qed.

(** * Further properties of the generator *)

(** ** The parser on any document *)

Lemma store_entry_colon_value (metadata : gmap string string) (line : string) :
  has_colon line = true ->
  store_entry metadata line = <[entry_key line := entry_value line]> metadata.
Proof.
  intros H. unfold store_entry, entry_key, entry_value.
  destruct (split1_shape ":" line) as [[Hn _] | [_ (key & value & ->)]].
  - unfold has_colon in H. congruence.
  - reflexivity.
Qed.

Lemma block_entries_app (metadata : gmap string string) (l1 l2 : list string) :
  block_entries metadata (l1 ++ l2) = block_entries (block_entries metadata l1) l2.
Proof. unfold block_entries. apply fold_left_app. Qed.

Lemma block_entries_cons (metadata : gmap string string) (line : string) (l : list string) :
  block_entries metadata (line :: l) = block_entries (store_entry metadata line) l.
Proof. reflexivity. Qed.

(** Lines without a delimiter in front of the rest are stored, and the count
    of delimiters seen stays as it is. *)
Lemma scan_metadata_plain_prefix (count : nat) (metadata : gmap string string)
    (pre rest : list string) :
  Forall (fun line => is_delimiter line = false) pre ->
  scan_metadata count metadata (pre ++ rest) =
  scan_metadata count (block_entries metadata pre) rest.
Proof.
  intros Hpre. revert metadata.
  induction Hpre as [|line pre Hline _ IH]; intros metadata.
  - reflexivity.
  - cbn [app scan_metadata]. unfold is_delimiter in Hline. rewrite Hline.
    rewrite block_entries_cons. unfold store_entry.
    destruct (Py.split1 ":" line) as [|key [|value [|? ?]]]; apply IH.
Qed.

(** The loop on a document with two delimiter lines: what it has stored when
    it leaves is what the lines before the closing delimiter hold, the opening
    delimiter apart. *)
Lemma scan_delimited (pre block rest : list string) (opening closing : string) :
  Forall (fun line => is_delimiter line = false) pre ->
  is_delimiter opening = true ->
  Forall (fun line => is_delimiter line = false) block ->
  is_delimiter closing = true ->
  scan_metadata 0 ∅ (pre ++ opening :: block ++ closing :: rest) =
  block_entries ∅ (pre ++ block).
Proof.
  intros Hpre Ho Hblock Hc.
  rewrite scan_metadata_plain_prefix by exact Hpre.
  cbn [scan_metadata]. unfold is_delimiter in Ho. rewrite Ho. cbn [Nat.add Nat.eqb].
  rewrite scan_metadata_block by assumption.
  now rewrite block_entries_app.
Qed.

(** The keys of the stored entries. *)
Lemma block_entries_keys (metadata : gmap string string) (l : list string) (key : string) :
  is_Some (block_entries metadata l !! key) <->
  is_Some (metadata !! key) \/
  exists line, In line l /\ has_colon line = true /\ entry_key line = key.
Proof.
  revert metadata. induction l as [|line l IH]; intros metadata.
  - unfold block_entries. simpl. split; [now left |].
    intros [H | (line & [] & _)]. exact H.
  - rewrite block_entries_cons, IH. destruct (has_colon line) eqn:Hc.
    + rewrite store_entry_colon_value by exact Hc.
      destruct (decide (entry_key line = key)) as [Heq | Hne].
      * split; intros _.
        -- right. exists line. split; [now left | now split].
        -- left. rewrite <- Heq, lookup_insert_eq. now eexists.
      * rewrite lookup_insert_ne by exact Hne. split.
        -- intros [H | (l0 & Hin & H1 & H2)]; [now left |].
           right. exists l0. split; [now right | now split].
        -- intros [H | (l0 & [<- | Hin] & H1 & H2)]; [now left | congruence |].
           right. exists l0. now split.
    + rewrite store_entry_no_colon by exact Hc. split.
      * intros [H | (l0 & Hin & H1 & H2)]; [now left |].
        right. exists l0. split; [now right | now split].
      * intros [H | (l0 & [<- | Hin] & H1 & H2)]; [now left | congruence |].
        right. exists l0. now split.
Qed.

(** Lines that do not store under [key] leave its entry alone. *)
Lemma block_entries_other_keys (metadata : gmap string string) (l : list string) (key : string) :
  (forall line, In line l -> has_colon line = true -> entry_key line <> key) ->
  block_entries metadata l !! key = metadata !! key.
Proof.
  revert metadata. induction l as [|line l IH]; intros metadata Hl.
  - reflexivity.
  - rewrite block_entries_cons, IH by (intros; apply Hl; [now right | assumption]).
    destruct (has_colon line) eqn:Hc.
    + rewrite store_entry_colon_value by exact Hc.
      apply lookup_insert_ne. apply Hl; [now left | exact Hc].
    + now rewrite store_entry_no_colon.
Qed.

Lemma block_entries_size_le (metadata : gmap string string) (l : list string) :
  size (block_entries metadata l) <= size metadata + length (entry_lines l).
Proof.
  revert metadata. induction l as [|line l IH]; intros metadata.
  - unfold block_entries. simpl. lia.
  - rewrite block_entries_cons. unfold entry_lines in *. simpl.
    destruct (has_colon line) eqn:Hc.
    + rewrite store_entry_colon_value by exact Hc.
      specialize (IH (<[entry_key line := entry_value line]> metadata)).
      rewrite map_size_insert in IH. simpl.
      destruct (metadata !! entry_key line); unfold id in IH; lia.
    + rewrite store_entry_no_colon by exact Hc. apply IH.
Qed.

Lemma entry_lines_length_le (l : list string) : length (entry_lines l) <= length l.
Proof. pose proof (entry_skipped_length l). lia. Qed.

Lemma true_body_index_delimited (pre block rest : list string) (opening closing : string) :
  Forall (fun line => is_delimiter line = false) pre ->
  is_delimiter opening = true ->
  Forall (fun line => is_delimiter line = false) block ->
  is_delimiter closing = true ->
  true_body_index (pre ++ opening :: block ++ closing :: rest) =
  Some (length pre + length block + 2).
Proof.
  intros Hpre Ho Hblock Hc. unfold true_body_index.
  rewrite delimiter_positions_skip by exact Hpre. cbn [delimiter_positions].
  rewrite Ho, delimiter_positions_skip by exact Hblock. cbn [delimiter_positions].
  rewrite Hc. f_equal. lia.
Qed.

(** X1. For a document with two delimiter lines, the keys of the metadata are
    the keys of the lines with a colon that stand before the closing
    delimiter, those before the opening delimiter included; no line after
    the closing delimiter gives a key. *)
Theorem metadata_keys_of_delimited_document (sys : Sys) (input_text opening closing : string)
    (pre block rest : list string) (key : string) :
  Py.split Py.NL input_text = (pre ++ opening :: block ++ closing :: rest)%list ->
  Forall (fun line => is_delimiter line = false) pre ->
  is_delimiter opening = true ->
  Forall (fun line => is_delimiter line = false) block ->
  is_delimiter closing = true ->
  is_Some ((convert_to_html sys input_text).1 !! key) <->
  exists line, In line (pre ++ block) /\ has_colon line = true /\ entry_key line = key.
Proof.
  intros Hsplit Hpre Ho Hblock Hc.
  unfold convert_to_html. cbn [fst]. rewrite Hsplit.
  rewrite scan_delimited by assumption. rewrite block_entries_keys.
  split; [| now right]. intros [[v Hv] | H]; [| exact H].
  rewrite lookup_empty in Hv. discriminate.
Qed.

Lemma metadata_keys_of_delimited_document_witness :
  is_Some ((convert_to_html demo_sys
              (text_of ["author: Ann"; "---"; "title: First"; "---"; "tag: x"])).1 !! "author") /\
  ~ is_Some ((convert_to_html demo_sys
                (text_of ["author: Ann"; "---"; "title: First"; "---"; "tag: x"])).1 !! "tag").
Proof.
  split.
  - apply (metadata_keys_of_delimited_document demo_sys _ "---" "---"
             ["author: Ann"] ["title: First"] ["tag: x"] "author");
      [vm_compute; reflexivity | repeat constructor | reflexivity | repeat constructor
      | reflexivity |].
    exists "author: Ann". split; [now left | split; reflexivity].
  - intros H.
    apply (metadata_keys_of_delimited_document demo_sys _ "---" "---"
             ["author: Ann"] ["title: First"] ["tag: x"] "tag") in H;
      [| vm_compute; reflexivity | repeat constructor | reflexivity | repeat constructor
       | reflexivity].
    destruct H as (line & [<- | [<- | []]] & _ & Hk); vm_compute in Hk; discriminate.
Defined.

(** X2. When several lines before the closing delimiter have the same key,
    the value of the last of them is the one kept. *)
Theorem metadata_last_entry_wins (sys : Sys) (input_text opening closing line : string)
    (pre block rest earlier later : list string) :
  Py.split Py.NL input_text = (pre ++ opening :: block ++ closing :: rest)%list ->
  Forall (fun line => is_delimiter line = false) pre ->
  is_delimiter opening = true ->
  Forall (fun line => is_delimiter line = false) block ->
  is_delimiter closing = true ->
  (pre ++ block = earlier ++ line :: later)%list ->
  has_colon line = true ->
  (forall l, In l later -> has_colon l = true -> entry_key l <> entry_key line) ->
  (convert_to_html sys input_text).1 !! entry_key line = Some (entry_value line).
Proof.
  intros Hsplit Hpre Ho Hblock Hc Hpos Hcolon Hlater.
  unfold convert_to_html. cbn [fst]. rewrite Hsplit.
  rewrite scan_delimited by assumption. rewrite Hpos.
  rewrite block_entries_app, block_entries_cons.
  rewrite block_entries_other_keys by exact Hlater.
  rewrite store_entry_colon_value by exact Hcolon. apply lookup_insert_eq.
Qed.

Lemma metadata_last_entry_wins_witness :
  (convert_to_html demo_sys
     (text_of ["---"; "tag: a"; "title: T"; "tag : b"; "---"; "Hello"])).1 !! "tag" = Some "b".
Proof.
  apply (metadata_last_entry_wins demo_sys _ "---" "---" "tag : b"
           [] ["tag: a"; "title: T"; "tag : b"] ["Hello"] ["tag: a"; "title: T"] []).
  - vm_compute. reflexivity.
  - constructor.
  - reflexivity.
  - repeat constructor.
  - reflexivity.
  - reflexivity.
  - reflexivity.
  - intros l [].
Defined.

(** X3. For a document with two delimiter lines the offset
    [len(metadata) + 2] never passes the line after the closing delimiter:
    no line of the text after the block is lost. *)
Theorem body_offset_never_late (sys : Sys) (input_text opening closing : string)
    (pre block rest : list string) :
  Py.split Py.NL input_text = (pre ++ opening :: block ++ closing :: rest)%list ->
  Forall (fun line => is_delimiter line = false) pre ->
  is_delimiter opening = true ->
  Forall (fun line => is_delimiter line = false) block ->
  is_delimiter closing = true ->
  exists index before_body,
    true_body_index (Py.split Py.NL input_text) = Some index /\
    body_offset (convert_to_html sys input_text).1 <= index /\
    drop (body_offset (convert_to_html sys input_text).1) (Py.split Py.NL input_text) =
      (before_body ++ rest)%list.
Proof.
  intros Hsplit Hpre Ho Hblock Hc.
  exists (length pre + length block + 2).
  assert (Hoff : body_offset (convert_to_html sys input_text).1 <= length pre + length block + 2).
  { unfold convert_to_html, body_offset. cbn [fst]. rewrite Hsplit.
    rewrite scan_delimited by assumption.
    pose proof (block_entries_size_le ∅ (pre ++ block)) as Hle.
    pose proof (entry_lines_length_le (pre ++ block)) as Hlen.
    rewrite map_size_empty in Hle. rewrite length_app in Hlen. lia. }
  remember (body_offset (convert_to_html sys input_text).1) as offset eqn:Hdef.
  clear Hdef.
  exists (drop offset (pre ++ opening :: block ++ [closing])).
  split; [| split; [exact Hoff |]].
  - rewrite Hsplit. now apply true_body_index_delimited.
  - rewrite Hsplit.
    replace (pre ++ opening :: block ++ closing :: rest)%list
      with ((pre ++ opening :: block ++ [closing]) ++ rest)%list
      by (rewrite <- !app_assoc; simpl; now rewrite <- app_assoc).
    apply drop_app_le. rewrite !length_app. simpl. rewrite length_app. simpl. lia.
Qed.

Lemma body_offset_never_late_witness :
  exists before_body,
    drop (body_offset (convert_to_html demo_sys
                         (text_of ["---"; "title: First"; "draft"; "---"; "Hello"])).1)
         (Py.split Py.NL (text_of ["---"; "title: First"; "draft"; "---"; "Hello"])) =
    (before_body ++ ["Hello"])%list.
Proof.
  destruct (body_offset_never_late demo_sys
              (text_of ["---"; "title: First"; "draft"; "---"; "Hello"])
              "---" "---" [] ["title: First"; "draft"] ["Hello"])
    as (index & before_body & _ & _ & H);
    [vm_compute; reflexivity | constructor | reflexivity | repeat constructor
    | reflexivity |].
  now exists before_body.
Defined.

Lemma delimiter_positions_length (i j : nat) (lines : list string) :
  length (delimiter_positions i lines) = length (delimiter_positions j lines).
Proof.
  revert i j. induction lines as [|line lines IH]; intros i j; simpl; [reflexivity |].
  destruct (is_delimiter line); simpl; [f_equal |]; apply IH.
Qed.

(** As long as the second delimiter has not been met, the loop stores every
    line that is not a delimiter. *)
Lemma scan_metadata_unclosed (count : nat) (metadata : gmap string string)
    (lines : list string) :
  count + length (delimiter_positions 0 lines) < 2 ->
  scan_metadata count metadata lines = block_entries metadata (plain_lines lines).
Proof.
  revert count metadata. induction lines as [|line lines IH]; intros count metadata Hlt.
  - reflexivity.
  - cbn [scan_metadata plain_lines List.filter delimiter_positions] in *.
    unfold is_delimiter in *. destruct (Py.startswith line "---") eqn:Hd.
    + cbn [length negb] in *. rewrite (delimiter_positions_length 1 0) in Hlt.
      assert (count = 0) as -> by lia. cbn [Nat.add Nat.eqb].
      apply IH. lia.
    + cbn [negb]. rewrite (delimiter_positions_length 1 0) in Hlt.
      rewrite block_entries_cons. unfold store_entry.
      destruct (Py.split1 ":" line) as [|key [|value [|? ?]]]; now apply IH.
Qed.

(** X4. For a document with fewer than two delimiter lines the loop never
    leaves early: every line with a colon, wherever it stands, gives a key,
    unless the line is itself a delimiter. *)
Theorem metadata_keys_of_unclosed_document (sys : Sys) (input_text key : string) :
  length (delimiter_positions 0 (Py.split Py.NL input_text)) < 2 ->
  is_Some ((convert_to_html sys input_text).1 !! key) <->
  exists line,
    In line (Py.split Py.NL input_text) /\ is_delimiter line = false /\
    has_colon line = true /\ entry_key line = key.
Proof.
  intros Hlt. unfold convert_to_html. cbn [fst].
  rewrite scan_metadata_unclosed by (simpl; exact Hlt).
  rewrite block_entries_keys. unfold plain_lines. split.
  - intros [[v Hv] | (line & Hin & Hc & Hk)].
    + rewrite lookup_empty in Hv. discriminate.
    + apply filter_In in Hin as [Hin Hnd]. exists line.
      repeat split; try assumption. now apply negb_true_iff.
  - intros (line & Hin & Hnd & Hc & Hk). right. exists line.
    repeat split; try assumption. apply filter_In. split; [exact Hin |].
    now apply negb_true_iff.
Qed.

Lemma metadata_keys_of_unclosed_document_witness :
  is_Some ((convert_to_html demo_sys
              (text_of ["---"; "title: First"; "Hello"; "see: below"])).1 !! "see").
Proof.
  apply (metadata_keys_of_unclosed_document demo_sys).
  - vm_compute. lia.
  - exists "see: below". split; [vm_compute; tauto | repeat split].
Defined.

(** ** Trimming *)

Lemma rstrip_idempotent (s : string) : Py.rstrip (Py.rstrip s) = Py.rstrip s.
Proof.
  induction s as [|c s IH]; [reflexivity |].
  cbn [Py.rstrip]. destruct (Py.rstrip s) as [|d r] eqn:E.
  - destruct (Py.isspace c) eqn:Hc; [reflexivity |].
    cbn [Py.rstrip]. now rewrite Hc.
  - cbn [Py.rstrip]. cbn [Py.rstrip] in IH. now rewrite IH.
Qed.

Lemma lstrip_head (s : string) :
  Py.lstrip s = "" \/ exists c t, Py.lstrip s = String c t /\ Py.isspace c = false.
Proof.
  induction s as [|c s IH]; [now left |].
  cbn [Py.lstrip]. destruct (Py.isspace c) eqn:Hc; [exact IH |].
  right. now exists c, s.
Qed.

Lemma rstrip_keeps_head (c : ascii) (t : string) :
  Py.isspace c = false -> exists u, Py.rstrip (String c t) = String c u.
Proof.
  intros Hc. cbn [Py.rstrip]. destruct (Py.rstrip t) as [|d r].
  - rewrite Hc. now exists "".
  - now exists (String d r).
Qed.

(** Trimming twice is trimming once. *)
Lemma strip_idempotent (s : string) : Py.strip (Py.strip s) = Py.strip s.
Proof.
  unfold Py.strip. destruct (lstrip_head s) as [-> | (c & t & -> & Hc)]; [reflexivity |].
  destruct (rstrip_keeps_head c t Hc) as [u Hu].
  rewrite Hu. cbn [Py.lstrip]. rewrite Hc, <- Hu. apply rstrip_idempotent.
Qed.

Lemma scan_metadata_invariant (P : string -> string -> Prop) (count : nat)
    (metadata : gmap string string) (lines : list string) :
  (forall key value, P (Py.strip key) (Py.strip value)) ->
  (forall key value, metadata !! key = Some value -> P key value) ->
  forall key value, scan_metadata count metadata lines !! key = Some value -> P key value.
Proof.
  intros Hnew. revert count metadata.
  induction lines as [|line lines IH]; intros count metadata Hm; [exact Hm |].
  cbn [scan_metadata]. destruct (Py.startswith line "---").
  - destruct (Nat.eqb (count + 1) 2); [exact Hm | now apply IH].
  - destruct (Py.split1 ":" line) as [|k [|v [|? ?]]]; try (now apply IH).
    apply IH. intros key value Hlook.
    destruct (decide (Py.strip k = key)) as [<- | Hne].
    + rewrite lookup_insert_eq in Hlook. injection Hlook as <-. apply Hnew.
    + rewrite lookup_insert_ne in Hlook by exact Hne. now apply Hm.
Qed.

(** X5. Whatever the document, the keys and the values of the metadata carry
    no white space at either end: trimming them again changes nothing. *)
Theorem metadata_entries_are_trimmed (sys : Sys) (input_text key value : string) :
  (convert_to_html sys input_text).1 !! key = Some value ->
  Py.strip key = key /\ Py.strip value = value.
Proof.
  unfold convert_to_html. cbn [fst].
  apply (scan_metadata_invariant (fun k v => Py.strip k = k /\ Py.strip v = v)).
  - intros k v. split; apply strip_idempotent.
  - intros k v H. rewrite lookup_empty in H. discriminate.
Qed.

Lemma metadata_entries_are_trimmed_witness :
  Py.strip "title" = "title" /\ Py.strip "My  page" = "My  page".
Proof.
  apply (metadata_entries_are_trimmed demo_sys
           (text_of ["---"; "  title :   My  page  "; "---"; "Hello"])).
  vm_compute. reflexivity.
Defined.

(** ** The body *)

Lemma join_cons_cons (sep x y : string) (l : list string) :
  Py.join sep (x :: y :: l) = x ++ sep ++ Py.join sep (y :: l).
Proof. reflexivity. Qed.

Lemma split_join (s : string) : Py.join (String Py.NL "") (Py.split Py.NL s) = s.
Proof.
  induction s as [|c s IH]; [reflexivity |].
  cbn [Py.split]. pose proof (split_nonempty Py.NL s) as Hne.
  destruct (Ascii.eqb_spec c Py.NL) as [-> | Hc].
  - destruct (Py.split Py.NL s) as [|w ws]; [congruence |].
    rewrite join_cons_cons, IH. reflexivity.
  - destruct (Py.split Py.NL s) as [|w ws]; [congruence |].
    rewrite join_cons_char. now rewrite IH.
Qed.

Lemma join_drop_suffix (sep : string) (n : nat) (l : list string) :
  exists prefix, Py.join sep l = prefix ++ Py.join sep (drop n l).
Proof.
  revert l. induction n as [|n IH]; intros l.
  - exists "". now rewrite drop_0.
  - destruct l as [|x l]; [now exists "" |].
    cbn [drop]. destruct (IH l) as [p Hp].
    destruct l as [|y l].
    + exists x. rewrite drop_nil. unfold Py.join. simpl. now rewrite str_app_nil_r.
    + exists (x ++ sep ++ p). rewrite join_cons_cons, Hp.
      now rewrite !str_app_assoc.
Qed.

(** X6. The text handed to the Markdown converter is always a tail of the
    document: the parser cuts lines off the front and changes nothing
    else. *)
Theorem body_is_tail_of_input (sys : Sys) (input_text : string) :
  exists prefix,
    input_text =
    prefix ++ body_text (convert_to_html sys input_text).1 (Py.split Py.NL input_text) /\
    (convert_to_html sys input_text).2 =
    sys_markdown sys (body_text (convert_to_html sys input_text).1 (Py.split Py.NL input_text)).
Proof.
  unfold body_text.
  destruct (join_drop_suffix (String Py.NL "")
              (size (convert_to_html sys input_text).1 + 2) (Py.split Py.NL input_text))
    as [prefix Hp].
  exists prefix. split; [| reflexivity].
  now rewrite <- Hp, split_join.
Qed.

(** X7. A document of at most two lines has an empty body, whatever the lines
    hold. *)
Theorem short_document_has_empty_body (sys : Sys) (input_text : string) :
  length (Py.split Py.NL input_text) <= 2 ->
  (convert_to_html sys input_text).2 = sys_markdown sys "".
Proof.
  intros Hlen. unfold convert_to_html, body_text. cbn [snd].
  rewrite drop_ge by lia. reflexivity.
Qed.

Lemma short_document_has_empty_body_witness :
  (convert_to_html demo_sys (text_of ["# Title"; "Only paragraph"])).2 = "".
Proof.
  apply (short_document_has_empty_body demo_sys). vm_compute. lia.
Defined.

(** ** The three destinations *)

Lemma path_join2_longer (a b : string) :
  Py.startswith b "/" = false -> b <> "" ->
  String.length a < String.length (Py.path_join2 a b).
Proof.
  intros Hb Hne. unfold Py.path_join2. rewrite Hb.
  destruct (String.eqb a "" || Py.endswith a "/"); rewrite !str_app_length;
    destruct b; simpl; try congruence; lia.
Qed.

Lemma path_join_html_blog_longer (root : string) :
  String.length (Py.path_join root ["html"]) <
  String.length (Py.path_join root ["html"; "blog"]).
Proof.
  unfold Py.path_join. cbn [fold_left].
  apply path_join2_longer; [reflexivity | discriminate].
Qed.

Lemma path_join_html_longer (root : string) :
  String.length root < String.length (Py.path_join root ["html"]).
Proof.
  unfold Py.path_join. cbn [fold_left].
  apply path_join2_longer; [reflexivity | discriminate].
Qed.

(** X8. The three destinations of the router differ from one another, so the
    destination tells the branch: a page goes to the output root exactly
    when its metadata name ['default.html'], and to [html/blog] exactly when
    they name ['post.html']. *)
Theorem router_destination_tells_template (CONFIG : Config) (metadata : gmap string string) :
  (determine_html_subdir CONFIG metadata = OUTPUT_DIR CONFIG <->
   metadata !! "template" = Some "default.html") /\
  (determine_html_subdir CONFIG metadata = Py.path_join (OUTPUT_DIR CONFIG) ["html"; "blog"] <->
   metadata !! "template" = Some "post.html").
Proof.
  pose proof (path_join_html_longer (OUTPUT_DIR CONFIG)) as H1.
  pose proof (path_join_html_blog_longer (OUTPUT_DIR CONFIG)) as H2.
  destruct (determine_html_subdir_cases CONFIG metadata) as (Hpost & Hdefault & Hother).
  destruct (decide (metadata !! "template" = Some "post.html")) as [Ep | Np];
    [| destruct (decide (metadata !! "template" = Some "default.html")) as [Ed | Nd]].
  - rewrite (Hpost Ep). split; split; intros H; try reflexivity; try exact Ep.
    + apply (f_equal String.length) in H. lia.
    + rewrite Ep in H. discriminate.
  - rewrite (Hdefault Ed). split; split; intros H; try reflexivity; try exact Ed.
    + apply (f_equal String.length) in H. lia.
    + rewrite Ed in H. discriminate.
  - rewrite (Hother Np Nd). split; split; intros H; try contradiction.
    + apply (f_equal String.length) in H. lia.
    + apply (f_equal String.length) in H. lia.
Qed.

(** ** Links and file names *)

Lemma map_chars_length (f : ascii -> ascii) (s : string) :
  String.length (map_chars f s) = String.length s.
Proof. induction s as [|c s IH]; simpl; [reflexivity | now rewrite IH]. Qed.

Lemma title_from_length (after_cased : bool) (s : string) :
  String.length (Py.title_from after_cased s) = String.length s.
Proof.
  revert after_cased. induction s as [|c s IH]; intros after_cased; simpl; [reflexivity |].
  destruct (Py.iscased c); simpl; now rewrite IH.
Qed.

Lemma map_chars_removes (c d : ascii) (s : string) :
  c <> d -> has_char c (map_chars (fun x => if Ascii.eqb x c then d else x) s) = false.
Proof.
  intros Hcd. induction s as [|x s IH]; simpl; [reflexivity |].
  rewrite IH, orb_false_r. destruct (Ascii.eqb_spec x c) as [-> | Hx].
  - apply Ascii.eqb_neq. congruence.
  - now apply Ascii.eqb_neq.
Qed.

(** X9. For an ASCII name, the text of a link holds no hyphen and is as long
    as the name: title-casing and the replacement change characters in
    place. *)
Theorem link_text_has_no_hyphen (name : string) :
  all_chars is_ascii name = true ->
  has_char "-" (Py.replace (Py.title name) "-" " ") = false /\
  String.length (Py.replace (Py.title name) "-" " ") = String.length name.
Proof.
  intros _. rewrite (replace_one_char "-" " "). split.
  - apply map_chars_removes. discriminate.
  - unfold Py.title. now rewrite map_chars_length, title_from_length.
Qed.

Lemma link_text_has_no_hyphen_witness :
  has_char "-" (Py.replace (Py.title "my-2nd-post") "-" " ") = false /\
  String.length (Py.replace (Py.title "my-2nd-post") "-" " ") = 11.
Proof. apply (link_text_has_no_hyphen "my-2nd-post"). reflexivity. Defined.

Lemma split_head_app (sep : ascii) (a b : string) :
  has_char sep a = false -> hd "" (Py.split sep (a ++ String sep b)) = a.
Proof.
  induction a as [|c a IH]; intros Ha.
  - simpl. now rewrite Ascii.eqb_refl.
  - cbn [has_char] in Ha. apply orb_false_elim in Ha as [Hc Ha].
    change (String c a ++ String sep b) with (String c (a ++ String sep b)).
    cbn [Py.split]. rewrite Hc. specialize (IH Ha).
    pose proof (split_nonempty sep (a ++ String sep b)) as Hne.
    destruct (Py.split sep (a ++ String sep b)) as [|w ws]; [congruence |].
    simpl in *. now rewrite IH.
Qed.

Lemma replace_scan_md_no_dot (s : string) :
  has_char "." s = false -> Py.replace_scan ".md" ".html" 0 s = s.
Proof.
  induction s as [|c s IH]; intros Hs; [reflexivity |].
  cbn [has_char] in Hs. apply orb_false_elim in Hs as [Hc Hs].
  cbn [Py.replace_scan]. rewrite prefix_cons.
  rewrite eqb_sym, Hc. now rewrite IH.
Qed.

Lemma substring_all (s : string) : substring 0 (String.length s) s = s.
Proof. induction s as [|c s IH]; simpl; [reflexivity | now rewrite IH]. Qed.

Lemma endswith_app (a p : string) : Py.endswith (a ++ p) p = true.
Proof.
  unfold Py.endswith. rewrite str_app_length.
  replace (String.length a + String.length p - String.length p) with (String.length a) by lia.
  apply andb_true_intro. split; [apply Nat.leb_le; lia |].
  apply String.eqb_eq. induction a as [|c a IH]; simpl; [apply substring_all | exact IH].
Qed.

(** X10. A post whose file name is [stem.md], with no dot in [stem], is
    converted, is written under the name [stem.html], and is linked under that
    same name: the index and the written page agree. *)
Theorem plain_post_name_link_and_file_agree (stem : string) :
  has_char "." stem = false ->
  Py.endswith (stem ++ ".md") ".md" = true /\
  Py.replace (stem ++ ".md") ".md" ".html" = stem ++ ".html" /\
  post_link (stem ++ ".md") =
    "<a href='/html/blog/" ++ Py.replace (stem ++ ".md") ".md" ".html"
    ++ "' class='post-link'>" ++ Py.replace (Py.title stem) "-" " " ++ "</a>".
Proof.
  intros Hstem.
  assert (Hrep : Py.replace (stem ++ ".md") ".md" ".html" = stem ++ ".html").
  { rewrite <- (str_app_nil_r (stem ++ ".md")), str_app_assoc, replace_md_app.
    unfold Py.replace. rewrite replace_scan_md_no_dot by exact Hstem. reflexivity. }
  split; [apply endswith_app |]. split; [exact Hrep |].
  rewrite Hrep. unfold post_link.
  change (stem ++ ".md") with (stem ++ String "." "md").
  rewrite split_head_app by exact Hstem.
  cbv zeta. now rewrite !str_app_assoc.
Qed.

Lemma plain_post_name_link_and_file_agree_witness :
  Py.replace ("my-first-post" ++ ".md") ".md" ".html" = "my-first-post" ++ ".html".
Proof.
  destruct (plain_post_name_link_and_file_agree "my-first-post") as (_ & H & _);
    [reflexivity | exact H].
Defined.

(** An entry whose name starts with a dot has an empty name: its link points
    to ['/html/blog/.html'] and has no text. *)
Lemma dotfile_link_is_empty (rest : string) :
  post_link (String "." rest) = "<a href='/html/blog/.html' class='post-link'></a>".
Proof. reflexivity. Qed.

(** ** A directory of documents *)

Section Directory.

Context {sys : Sys}.
Variable CONFIG : Config.

Lemma for_each_markdown_entries (input_dir post_list : string) (filenames : list string)
    (s : State sys) :
  for_each filenames (convert_file CONFIG input_dir post_list) s =
  for_each (markdown_entries filenames) (convert_file CONFIG input_dir post_list) s.
Proof.
  revert s. induction filenames as [|f filenames IH]; intros s; [reflexivity |].
  unfold markdown_entries in *. cbn [List.filter for_each].
  destruct (Py.endswith f ".md") eqn:Hmd.
  - cbn [for_each]. unfold bind.
    destruct (convert_file CONFIG input_dir post_list f s) as [[[]|e] s']; [apply IH | reflexivity].
  - unfold bind. rewrite (convert_file_skip CONFIG input_dir post_list f s Hmd). apply IH.
Qed.




End Directory.

(** X11. [convert_markdown] passes over every entry of the listing that does
    not end in ['.md'] (the [blog] subdirectory, for one): after the listing
    it does what it would do on the ['.md'] entries alone. *)
Theorem convert_markdown_skips_other_entries {sys : Sys} (CONFIG : Config)
    (input_dir post_list : string) (filenames : list string) (s : State sys) (w : World sys) :
  sys_listdir sys input_dir (world s) = (Ok filenames, w) ->
  convert_markdown CONFIG input_dir post_list s =
  for_each (markdown_entries filenames) (convert_file CONFIG input_dir post_list)
    (Build_State sys w (trace s ++ [EvListdir input_dir])).
Proof.
  intros Hls. unfold convert_markdown, bind, os_listdir, call. rewrite Hls.
  apply for_each_markdown_entries.
Qed.

Lemma convert_markdown_skips_other_entries_witness :
  convert_markdown demo_config "content" "" demo_state =
  for_each ["index.md"] (convert_file demo_config "content" "")
    (Build_State demo_sys demo_world [EvListdir "content"]).
Proof.
  apply (convert_markdown_skips_other_entries demo_config "content" ""
           ["index.md"; "blog"; "notes.txt"] demo_state demo_world).
  vm_compute. reflexivity.
Defined.



(** ** Static files *)

Section Static.

Context {sys : Sys}.

Lemma for_each_copy_trace (src dst : string) (filenames : list string) (s : State sys) :
  let copy := fun filename =>
    shutil_copyfile (sys := sys) (Py.path_join src [filename]) (Py.path_join dst [filename]) in
  exists n,
    n <= length filenames /\
    trace (for_each filenames copy s).2 =
      (trace s ++ take n (map (copy_event src dst) filenames))%list /\
    ((for_each filenames copy s).1 = Ok tt -> n = length filenames).
Proof.
  intros copy. revert s. induction filenames as [|f filenames IH]; intros s.
  - exists 0. cbn. rewrite app_nil_r. repeat split; lia.
  - cbn [for_each]. unfold bind.
    destruct (copy f s) as [[[]|e] s1] eqn:E.
    + destruct (IH s1) as (n & Hn & Ht & Hok). exists (S n).
      assert (Hs1 : trace s1 = (trace s ++ [copy_event src dst f])%list).
      { unfold copy, shutil_copyfile, call in E.
        destruct (sys_copyfile sys _ _ (world s)) as [r w]. now injection E as _ <-. }
      cbn [length map take]. repeat split; [lia | | intros H; f_equal; now apply Hok].
      rewrite Ht, Hs1, <- app_assoc. reflexivity.
    + exists 1. cbn [length map take fst snd]. repeat split; [lia | | discriminate].
      unfold copy, shutil_copyfile, call in E.
      destruct (sys_copyfile sys _ _ (world s)) as [r w]. injection E as _ <-.
      now rewrite take_0.
Qed.

End Static.

Lemma for_each_copy_ok {sys : Sys} (src dst : string) (filenames : list string)
    (s s' : State sys) :
  for_each filenames
    (fun filename =>
       shutil_copyfile (sys := sys) (Py.path_join src [filename]) (Py.path_join dst [filename]))
    s = (Ok tt, s') ->
  trace s' = (trace s ++ map (copy_event src dst) filenames)%list.
Proof.
  intros H. destruct (for_each_copy_trace src dst filenames s) as (n & Hn & Ht & Hok).
  cbv zeta in Ht, Hok. rewrite H in Ht, Hok. cbn [fst snd] in Ht, Hok.
  rewrite (Hok eq_refl) in Ht. rewrite Ht. f_equal.
  apply take_ge. now rewrite length_map.
Qed.

(** X13. [copy_static_files] creates the destination directory first; if
    that raises, nothing is listed or copied.  Else it lists the source
    directory; if that raises, nothing is copied.  Else it copies the entries
    one by one in the order of the listing, every entry to the same name below
    the destination.  The first copy that raises ends it, with the exception
    of that copy: the entries after it are not copied.  When it returns,
    every entry has been copied. *)
Theorem copy_static_files_copies_the_listing {sys : Sys} (CONFIG : Config) (ext : string)
    (s : State sys) :
  let src := Py.path_join (STATIC_DIR CONFIG) [ext] in
  let dst := Py.path_join (OUTPUT_DIR CONFIG) [ext] in
  let copy := fun filename =>
    shutil_copyfile (sys := sys) (Py.path_join src [filename]) (Py.path_join dst [filename]) in
  let listed := fun w2 => Build_State sys w2 (trace s ++ [EvMkdir dst; EvListdir src]) in
  (forall e w,
     sys_mkdir sys dst (world s) = (Raised e, w) ->
     copy_static_files CONFIG ext s = (Raised e, Build_State sys w (trace s ++ [EvMkdir dst]))) /\
  (forall w1 e w2,
     sys_mkdir sys dst (world s) = (Ok tt, w1) ->
     sys_listdir sys src w1 = (Raised e, w2) ->
     copy_static_files CONFIG ext s = (Raised e, listed w2)) /\
  (forall w1 w2 done remaining filename s3 e w',
     sys_mkdir sys dst (world s) = (Ok tt, w1) ->
     sys_listdir sys src w1 = (Ok (done ++ filename :: remaining)%list, w2) ->
     for_each done copy (listed w2) = (Ok tt, s3) ->
     sys_copyfile sys (Py.path_join src [filename]) (Py.path_join dst [filename]) (world s3) =
       (Raised e, w') ->
     copy_static_files CONFIG ext s =
       (Raised e,
        Build_State sys w'
          (trace s ++ EvMkdir dst :: EvListdir src ::
             map (copy_event src dst) (done ++ [filename])))) /\
  (forall w1 filenames w2,
     sys_mkdir sys dst (world s) = (Ok tt, w1) ->
     sys_listdir sys src w1 = (Ok filenames, w2) ->
     exists n,
       n <= length filenames /\
       trace (copy_static_files CONFIG ext s).2 =
         (trace s ++ EvMkdir dst :: EvListdir src ::
            take n (map (copy_event src dst) filenames))%list /\
       ((copy_static_files CONFIG ext s).1 = Ok tt -> n = length filenames)).
Proof.
  intros src dst copy listed.
  assert (Hrun : forall w1 filenames w2,
            sys_mkdir sys dst (world s) = (Ok tt, w1) ->
            sys_listdir sys src w1 = (Ok filenames, w2) ->
            copy_static_files CONFIG ext s = for_each filenames copy (listed w2)).
  { intros w1 filenames w2 Hmk Hls. unfold copy_static_files, listed. fold src dst.
    unfold bind, os_mkdir, os_listdir, call. rewrite Hmk. cbn [world trace].
    rewrite Hls. now rewrite <- app_assoc. }
  split; [| split; [| split]].
  - intros e w Hmk. unfold copy_static_files. fold src dst.
    unfold bind, os_mkdir, call. now rewrite Hmk.
  - intros w1 e w2 Hmk Hls. unfold copy_static_files, listed. fold src dst.
    unfold bind, os_mkdir, os_listdir, call. rewrite Hmk. cbn [world trace].
    rewrite Hls. now rewrite <- app_assoc.
  - intros w1 w2 done remaining filename s3 e w' Hmk Hls Hdone Hcopy.
    rewrite (Hrun _ _ _ Hmk Hls).
    apply (for_each_abort copy done remaining filename _ s3 _ e Hdone).
    unfold copy, shutil_copyfile, call. rewrite Hcopy. f_equal. f_equal.
    rewrite (for_each_copy_ok src dst done _ _ Hdone). unfold listed. cbn [trace].
    rewrite map_app. cbn [map]. fold (copy_event src dst filename).
    now rewrite <- !app_assoc.
  - intros w1 filenames w2 Hmk Hls. rewrite (Hrun _ _ _ Hmk Hls).
    destruct (for_each_copy_trace src dst filenames (listed w2)) as (n & Hn & Ht & Hok).
    exists n. split; [exact Hn |]. split; [| exact Hok].
    fold copy in Ht. rewrite Ht. unfold listed. cbn [trace]. now rewrite <- !app_assoc.
Qed.

Lemma copy_static_files_copies_the_listing_witness :
  copy_static_files demo_config "js" missing_script_state =
  (Raised (FileNotFoundError "static/js/gone.js"),
   Build_State demo_sys
     (demo_copyfile "static/js/dev.js" "dist/js/dev.js"
        (demo_mkdir "dist/js" missing_script_world).2).2
     [EvMkdir "dist/js"; EvListdir "static/js";
      EvCopyfile "static/js/dev.js" "dist/js/dev.js";
      EvCopyfile "static/js/gone.js" "dist/js/gone.js"]).
Proof.
  destruct (copy_static_files_copies_the_listing demo_config "js" missing_script_state)
    as (_ & _ & H & _).
  apply (H (demo_mkdir "dist/js" missing_script_world).2
           (demo_mkdir "dist/js" missing_script_world).2
           ["dev.js"] ["late.js"] "gone.js"
           (Build_State demo_sys
              (demo_copyfile "static/js/dev.js" "dist/js/dev.js"
                 (demo_mkdir "dist/js" missing_script_world).2).2
              [EvMkdir "dist/js"; EvListdir "static/js";
               EvCopyfile "static/js/dev.js" "dist/js/dev.js"])
           (FileNotFoundError "static/js/gone.js")).
  - vm_compute. reflexivity.
  - vm_compute. reflexivity.
  - vm_compute. reflexivity.
  - vm_compute. reflexivity.
Defined.

(** ** Stylesheets *)

Lemma sass_style_eq (CONFIG : Config) :
  (if Bool.eqb (py_bool (DEBUG CONFIG)) true then "expanded" else CSS_OUTPUT_STYLE CONFIG) =
  sass_style CONFIG.
Proof. unfold sass_style. now destruct (py_bool (DEBUG CONFIG)). Qed.

(** X14. [compile_sass] calls the compiler once, on [<static>/scss] and
    [<output>/css], with the style ['expanded'] in debug mode and the
    configured style otherwise.  When the compiler returns, that call is all
    it does.  A [CompileError] does not leave it: its message is printed and
    the function returns.  Any other exception of the compiler does leave it,
    and nothing is printed. *)
Theorem compile_sass_contains_compile_errors {sys : Sys} (CONFIG : Config) (s : State sys) :
  let input_dir := Py.path_join (STATIC_DIR CONFIG) ["scss"] in
  let output_dir := Py.path_join (OUTPUT_DIR CONFIG) ["css"] in
  let compiling := EvSassCompile input_dir output_dir (sass_style CONFIG) in
  (forall msg, (compile_sass CONFIG s).1 <> Raised (CompileError msg)) /\
  (forall w,
     sys_sass_compile sys input_dir output_dir (sass_style CONFIG) (world s) = (Ok tt, w) ->
     compile_sass CONFIG s = (Ok tt, Build_State sys w (trace s ++ [compiling]))) /\
  (forall msg w,
     sys_sass_compile sys input_dir output_dir (sass_style CONFIG) (world s) =
       (Raised (CompileError msg), w) ->
     compile_sass CONFIG s =
       (Ok tt, Build_State sys (sys_print sys msg w) (trace s ++ [compiling; EvPrint msg]))) /\
  (forall e w,
     sys_sass_compile sys input_dir output_dir (sass_style CONFIG) (world s) = (Raised e, w) ->
     (forall msg, e <> CompileError msg) ->
     compile_sass CONFIG s = (Raised e, Build_State sys w (trace s ++ [compiling]))).
Proof.
  intros input_dir output_dir compiling.
  unfold compile_sass. rewrite sass_style_eq. fold input_dir output_dir.
  unfold try_compile_error, sass_compile, call, print, call_total.
  destruct (sys_sass_compile sys input_dir output_dir (sass_style CONFIG) (world s))
    as [[[]|e] w] eqn:E.
  - split; [intros ? ?; discriminate |].
    split; [intros ? H; now injection H as <- |].
    split; intros; discriminate.
  - destruct e; cbn [fst trace world];
      (split; [intros ? ?; discriminate |]);
      (split; [intros ? H; discriminate H |]);
      (split; [intros ? ? H; try discriminate H |
               intros ? ? H Hne; injection H as <- <-;
               try reflexivity; exfalso; eapply Hne; reflexivity]).
    injection H as <- <-. now rewrite <- app_assoc.
Qed.

Lemma compile_sass_contains_compile_errors_witness :
  compile_sass demo_config bad_scss_state =
  (Ok tt,
   Build_State bad_scss_sys (demo_print "Error: expected '}'" demo_world)
     [EvSassCompile "static/scss" "dist/css" "expanded"; EvPrint "Error: expected '}'"]).
Proof.
  destruct (compile_sass_contains_compile_errors demo_config bad_scss_state)
    as (_ & _ & H & _).
  apply (H "Error: expected '}'" demo_world). reflexivity.
Defined.

(** ** The whole build *)

Lemma run_stages_app_ok {sys : Sys} (CONFIG : Config) (before after : list Stage)
    (posts posts' : string) (s s1 : State sys) :
  run_stages CONFIG before posts s = (Ok posts', s1) ->
  run_stages CONFIG (before ++ after) posts s = run_stages CONFIG after posts' s1.
Proof.
  revert posts s. induction before as [|st before IH]; intros posts s H.
  - cbn [run_stages] in H. unfold ret in H. now injection H as <- <-.
  - cbn [app run_stages] in *. unfold bind in *.
    destruct (run_stage CONFIG st posts s) as [[p|e] s']; [| discriminate].
    now apply IH.
Qed.

(** X15. A stylesheet that does not compile does not stop the build: when
    the six stages before it have returned and the compiler raises
    [CompileError], [build_site] returns; it prints the message of the
    error and then the duration line. *)
Theorem build_survives_stylesheet_error {sys : Sys} (CONFIG : Config) (s s6 : State sys)
    (posts msg : string) (w : World sys) :
  let input_dir := Py.path_join (STATIC_DIR CONFIG) ["scss"] in
  let output_dir := Py.path_join (OUTPUT_DIR CONFIG) ["css"] in
  run_stages CONFIG
    [CollectPostIndex; ResetOutputTree; ConvertMainDir; ConvertBlogDir;
     CopyStaticJS; CopyStaticImg] "" (perf_counter s).2 = (Ok posts, s6) ->
  sys_sass_compile sys input_dir output_dir (sass_style CONFIG) (world s6) =
    (Raised (CompileError msg), w) ->
  (build_site CONFIG s).1 = Ok tt /\
  exists start finish,
    trace (build_site CONFIG s).2 =
      (trace s6 ++ [EvSassCompile input_dir output_dir (sass_style CONFIG); EvPrint msg;
                    EvPerfCounter; EvPrint (duration_line sys start finish)])%list.
Proof.
  intros input_dir output_dir Hrun Hsass.
  rewrite build_site_staged. unfold staged_build.
  destruct (perf_counter_ok s) as [start Hp]. rewrite (bind_ok _ _ _ _ _ Hp).
  assert (Hstyle : compile_sass CONFIG s6 =
            (Ok tt, Build_State sys (sys_print sys msg w)
                      (trace s6 ++ [EvSassCompile input_dir output_dir (sass_style CONFIG);
                                    EvPrint msg]))).
  { unfold compile_sass. rewrite sass_style_eq. fold input_dir output_dir.
    unfold try_compile_error, sass_compile, call, print, call_total.
    rewrite Hsass. cbn [world trace]. now rewrite <- app_assoc. }
  assert (Hall : run_stages CONFIG build_order "" (perf_counter s).2 =
            (Ok posts, Build_State sys (sys_print sys msg w)
                         (trace s6 ++ [EvSassCompile input_dir output_dir (sass_style CONFIG);
                                       EvPrint msg]))).
  { change build_order with
      ([CollectPostIndex; ResetOutputTree; ConvertMainDir; ConvertBlogDir;
        CopyStaticJS; CopyStaticImg] ++ [CompileStylesheets])%list.
    rewrite (run_stages_app_ok CONFIG _ _ _ _ _ _ Hrun).
    cbn [run_stages run_stage]. unfold bind. rewrite Hstyle. reflexivity. }
  rewrite (bind_ok _ _ _ _ _ Hall).
  unfold bind, perf_counter, print, call_total. cbn [world trace].
  destruct (sys_perf_counter sys (sys_print sys msg w)) as [finish w'].
  cbn [fst snd trace]. split; [reflexivity |].
  exists start, finish. unfold duration_line. now rewrite <- !app_assoc.
Qed.

Lemma build_survives_stylesheet_error_witness :
  (build_site demo_config bad_scss_state).1 = Ok tt /\
  demo_console (world (build_site demo_config bad_scss_state).2) =
    ["Error: expected '}'"; "Finished site build in 0.0 second(s)"].
Proof.
  destruct (build_survives_stylesheet_error demo_config bad_scss_state
              (run_stages demo_config
                 [CollectPostIndex; ResetOutputTree; ConvertMainDir; ConvertBlogDir;
                  CopyStaticJS; CopyStaticImg] "" (perf_counter bad_scss_state).2).2
              (post_link "my-first-post.md") "Error: expected '}'"
              (world (run_stages demo_config
                 [CollectPostIndex; ResetOutputTree; ConvertMainDir; ConvertBlogDir;
                  CopyStaticJS; CopyStaticImg] "" (perf_counter bad_scss_state).2).2))
    as [H _]; [vm_compute; reflexivity | vm_compute; reflexivity |].
  split; [exact H | vm_compute; reflexivity].
Defined.

(** X16. When the blog source directory cannot be listed, [build_site] ends
    with the exception of the listing, and that listing is its only call
    after the clock was read: the output tree has not been removed, and no
    page has been read or written. *)
Theorem build_stops_before_reset_without_blog_listing {sys : Sys} (CONFIG : Config)
    (s : State sys) (e : Exn) (w : World sys) :
  let blog := Py.path_join (INPUT_DIR CONFIG) ["blog"] in
  sys_listdir sys blog (world (perf_counter s).2) = (Raised e, w) ->
  build_site CONFIG s =
    (Raised e, Build_State sys w (trace s ++ [EvPerfCounter; EvListdir blog])).
Proof.
  intros blog Hls. unfold build_site.
  destruct (perf_counter_ok s) as [start Hp]. rewrite (bind_ok _ _ _ _ _ Hp).
  apply bind_raised. unfold collect_posts, bind, os_listdir, call. fold blog.
  rewrite Hls. rewrite perf_counter_trace. now rewrite <- app_assoc.
Qed.

Lemma build_stops_before_reset_without_blog_listing_witness :
  build_site demo_config stale_state =
  (Raised (FileNotFoundError "content/blog"),
   Build_State demo_sys stale_world [EvPerfCounter; EvListdir "content/blog"]).
Proof.
  apply (build_stops_before_reset_without_blog_listing demo_config stale_state).
  vm_compute. reflexivity.
Defined.

(** X17. A build that returns has run its seven stages, and its last call is
    the print of the duration line. *)
Theorem successful_build_ends_with_duration_line {sys : Sys} (CONFIG : Config)
    (s : State sys) :
  (build_site CONFIG s).1 = Ok tt ->
  exists posts s7 start finish,
    run_stages CONFIG build_order "" (perf_counter s).2 = (Ok posts, s7) /\
    trace (build_site CONFIG s).2 =
      (trace s7 ++ [EvPerfCounter; EvPrint (duration_line sys start finish)])%list.
Proof.
  rewrite build_site_staged. unfold staged_build.
  destruct (perf_counter_ok s) as [start Hp]. rewrite (bind_ok _ _ _ _ _ Hp).
  destruct (run_stages CONFIG build_order "" (perf_counter s).2) as [[posts|e] s7] eqn:Hrun.
  - rewrite (bind_ok _ _ _ _ _ Hrun). intros _.
    unfold bind, perf_counter, print, call_total. cbn [world trace].
    destruct (sys_perf_counter sys (world s7)) as [finish w']. cbn [snd trace].
    exists posts, s7, start, finish. split; [reflexivity |].
    unfold duration_line. now rewrite <- !app_assoc.
  - rewrite (bind_raised _ _ _ _ _ Hrun). discriminate.
Qed.

Lemma successful_build_ends_with_duration_line_witness :
  exists s7 : State demo_sys,
    trace (build_site demo_config demo_state).2 =
    (trace s7 ++ [EvPerfCounter; EvPrint "Finished site build in 0.0 second(s)"])%list.
Proof.
  destruct (successful_build_ends_with_duration_line demo_config demo_state)
    as (posts & s7 & start & finish & _ & H); [vm_compute; reflexivity |].
  exists s7. exact H.
Defined.

